(** * AudioPlayer: playback controller, signal graph and visualisation loop

    A shallow embedding of [src/components/AudioPlayer.tsx].

    The component is a React function component.  Its handlers are closures
    over the values bound by one render (the props and the [isPlaying] state
    snapshot); everything that survives a render lives in [useRef] cells, in
    the [useState] cell, or inside the platform objects (the Web Audio graph,
    the animation-frame queue, the canvas).  The embedding keeps that split:
    a handler takes the [Scope] it closed over and runs in a small
    state-and-exception monad over the [World].

    JavaScript numbers are modelled by exact rationals ([Q]); rounding of
    IEEE doubles is outside the model. *)

From Stdlib Require Import String Ascii DecimalString DecimalZ DecimalPos.
From Stdlib Require Import QArith Qround ZArith List Bool Lia Lqa.
Import ListNotations.
Open Scope Q_scope.

(** ** JavaScript arithmetic *)

(** Truncation toward zero, the rounding used by the [%] operator. *)
Definition Qtrunc (q : Q) : Z := Z.quot (Qnum q) (Zpos (Qden q)).

(** [a % b] on finite numbers with [b] non-zero: the result has the sign of
    the dividend.  ([a % 0] is NaN in JavaScript; an [AudioBuffer] has at
    least one frame, so its duration is positive and the case does not
    arise.) *)
Definition js_rem (a b : Q) : Q := a - b * inject_Z (Qtrunc (a / b)).

(** Truthiness of a number held in a ref ([if (animationFrameRef.current)]). *)
Definition truthy (z : Z) : bool := negb (Z.eqb z 0).

(** ** Platform objects *)

Record AudioBuffer := { duration : Q }.

(** Where an output of a node is connected to. *)
Inductive Target :=
| ToFilter (n : nat)
| ToAnalyser (n : nat)
| ToDestination.

Record AudioBufferSourceNode := {
  buffer : option AudioBuffer;
  src_outputs : list Target;
  (** [Some offset] once [start(0, offset)] has been called *)
  started : option Q;
  stopped : bool;
  (** the [onended] handler; the closure is determined by the [audioBuffer]
      it captured *)
  onended : option AudioBuffer
}.

Inductive BiquadFilterType := lowpass | lowshelf.

(** An automation scheduled with [setTargetAtTime]. *)
Record TargetAutomation := {
  target : Q;
  startTime : Q;
  timeConstant : Q
}.

Record AudioParam := {
  value : Q;
  automation : option TargetAutomation
}.

Record BiquadFilterNode := {
  ftype : BiquadFilterType;
  frequency : Q;
  gain : AudioParam;
  flt_outputs : list Target
}.

Record AnalyserNode := {
  fftSize : Z;
  an_outputs : list Target
}.

Inductive AudioContextState := suspended | running.

(** The page's audio context with the nodes it has created.  A node is
    referred to by its index in the list of its kind. *)
Record AudioContext := {
  currentTime : Q;
  state : AudioContextState;
  sources : list AudioBufferSourceNode;
  filters : list BiquadFilterNode;
  analysers : list AnalyserNode
}.

(** [App.tsx] passes [geminiService?.getAudioContext() || null]: the one
    context of the page, or null. *)
Inductive ContextHandle := TheContext.

Record Canvas := { width : Z; height : Z }.

(** ** Component *)

(** The bindings of one render: the props and the state snapshot.  Handlers
    and callbacks created during a render see these values for ever. *)
Record Scope := {
  audioBuffer : option AudioBuffer;
  audioContext : option ContextHandle;
  bassBoost : Q;
  isPlaying : bool
}.

Record Refs := {
  canvasRef : option Canvas;
  sourceRef : option nat;
  bassFilterRef : option nat;
  startTimeRef : Q;
  pausedTimeRef : Q;
  animationFrameRef : Z;
  analyserRef : option nat
}.

(** The [draw] closure handed to [requestAnimationFrame]: what matters of
    its environment is the [isPlaying] it captured. *)
Record DrawClosure := { seen_isPlaying : bool }.

Record Page := {
  (** pending animation-frame callbacks, by handle *)
  frames : list (Z * DrawClosure);
  (** last handle given out; handles are positive *)
  lastHandle : Z;
  (** whether [canvas.getContext('2d')] yields a context *)
  context2d : bool;
  (** number of frames painted on the canvas *)
  painted : nat
}.

Record World := {
  (** props and state as the latest render binds them *)
  scope : Scope;
  refs : Refs;
  audio : AudioContext;
  page : Page
}.

Inductive Exception := InvalidStateError | RangeError.

Inductive Outcome (A : Type) :=
| Ok (a : A) (w : World)
| Throw (e : Exception) (w : World).
Arguments Ok {A} a w.
Arguments Throw {A} e w.

Definition M (A : Type) : Type := World -> Outcome A.

Definition ret {A} (a : A) : M A := fun w => Ok a w.

Definition bind {A B} (m : M A) (k : A -> M B) : M B :=
  fun w => match m w with
           | Ok a w' => k a w'
           | Throw e w' => Throw e w'
           end.

Definition throw {A} (e : Exception) : M A := fun w => Throw e w.

(** [try { m } catch (e) { h e }] *)
Definition try_catch {A} (m : M A) (h : Exception -> M A) : M A :=
  fun w => match m w with
           | Ok a w' => Ok a w'
           | Throw e w' => h e w'
           end.

Definition gets {A} (f : World -> A) : M A := fun w => Ok (f w) w.
Definition modify (f : World -> World) : M unit := fun w => Ok tt (f w).

Declare Scope m_scope.
Delimit Scope m_scope with m.
Notation "x <- m ;; k" := (bind m (fun x => k))
  (at level 61, m at next level, right associativity) : m_scope.
Notation "m ;; k" := (bind m (fun _ => k))
  (at level 61, right associativity) : m_scope.
Open Scope m_scope.

(** *** Field updates *)

Definition with_scope (f : Scope -> Scope) (w : World) : World :=
  {| scope := f (scope w); refs := refs w; audio := audio w; page := page w |}.
Definition with_refs (f : Refs -> Refs) (w : World) : World :=
  {| scope := scope w; refs := f (refs w); audio := audio w; page := page w |}.
Definition with_audio (f : AudioContext -> AudioContext) (w : World) : World :=
  {| scope := scope w; refs := refs w; audio := f (audio w); page := page w |}.
Definition with_page (f : Page -> Page) (w : World) : World :=
  {| scope := scope w; refs := refs w; audio := audio w; page := f (page w) |}.

Definition set_isPlaying (b : bool) (s : Scope) : Scope :=
  {| audioBuffer := audioBuffer s; audioContext := audioContext s;
     bassBoost := bassBoost s; isPlaying := b |}.
Definition set_audioBuffer (b : option AudioBuffer) (s : Scope) : Scope :=
  {| audioBuffer := b; audioContext := audioContext s;
     bassBoost := bassBoost s; isPlaying := isPlaying s |}.
Definition set_audioContext (c : option ContextHandle) (s : Scope) : Scope :=
  {| audioBuffer := audioBuffer s; audioContext := c;
     bassBoost := bassBoost s; isPlaying := isPlaying s |}.
Definition set_bassBoost (l : Q) (s : Scope) : Scope :=
  {| audioBuffer := audioBuffer s; audioContext := audioContext s;
     bassBoost := l; isPlaying := isPlaying s |}.

Definition set_canvasRef (c : option Canvas) (r : Refs) : Refs :=
  {| canvasRef := c; sourceRef := sourceRef r;
     bassFilterRef := bassFilterRef r; startTimeRef := startTimeRef r;
     pausedTimeRef := pausedTimeRef r;
     animationFrameRef := animationFrameRef r; analyserRef := analyserRef r |}.
Definition set_sourceRef (n : option nat) (r : Refs) : Refs :=
  {| canvasRef := canvasRef r; sourceRef := n;
     bassFilterRef := bassFilterRef r; startTimeRef := startTimeRef r;
     pausedTimeRef := pausedTimeRef r;
     animationFrameRef := animationFrameRef r; analyserRef := analyserRef r |}.
Definition set_bassFilterRef (n : option nat) (r : Refs) : Refs :=
  {| canvasRef := canvasRef r; sourceRef := sourceRef r;
     bassFilterRef := n; startTimeRef := startTimeRef r;
     pausedTimeRef := pausedTimeRef r;
     animationFrameRef := animationFrameRef r; analyserRef := analyserRef r |}.
Definition set_startTimeRef (t : Q) (r : Refs) : Refs :=
  {| canvasRef := canvasRef r; sourceRef := sourceRef r;
     bassFilterRef := bassFilterRef r; startTimeRef := t;
     pausedTimeRef := pausedTimeRef r;
     animationFrameRef := animationFrameRef r; analyserRef := analyserRef r |}.
Definition set_pausedTimeRef (t : Q) (r : Refs) : Refs :=
  {| canvasRef := canvasRef r; sourceRef := sourceRef r;
     bassFilterRef := bassFilterRef r; startTimeRef := startTimeRef r;
     pausedTimeRef := t;
     animationFrameRef := animationFrameRef r; analyserRef := analyserRef r |}.
Definition set_animationFrameRef (z : Z) (r : Refs) : Refs :=
  {| canvasRef := canvasRef r; sourceRef := sourceRef r;
     bassFilterRef := bassFilterRef r; startTimeRef := startTimeRef r;
     pausedTimeRef := pausedTimeRef r;
     animationFrameRef := z; analyserRef := analyserRef r |}.
Definition set_analyserRef (n : option nat) (r : Refs) : Refs :=
  {| canvasRef := canvasRef r; sourceRef := sourceRef r;
     bassFilterRef := bassFilterRef r; startTimeRef := startTimeRef r;
     pausedTimeRef := pausedTimeRef r;
     animationFrameRef := animationFrameRef r; analyserRef := n |}.

Definition set_currentTime (t : Q) (a : AudioContext) : AudioContext :=
  {| currentTime := t; state := state a; sources := sources a;
     filters := filters a; analysers := analysers a |}.
Definition set_state (s : AudioContextState) (a : AudioContext) : AudioContext :=
  {| currentTime := currentTime a; state := s; sources := sources a;
     filters := filters a; analysers := analysers a |}.
Definition set_sources (l : list AudioBufferSourceNode) (a : AudioContext)
  : AudioContext :=
  {| currentTime := currentTime a; state := state a; sources := l;
     filters := filters a; analysers := analysers a |}.
Definition set_filters (l : list BiquadFilterNode) (a : AudioContext)
  : AudioContext :=
  {| currentTime := currentTime a; state := state a; sources := sources a;
     filters := l; analysers := analysers a |}.
Definition set_analysers (l : list AnalyserNode) (a : AudioContext)
  : AudioContext :=
  {| currentTime := currentTime a; state := state a; sources := sources a;
     filters := filters a; analysers := l |}.

(** Update of the [n]-th element of a node table; nothing happens when the
    index names no node. *)
Fixpoint update {A} (n : nat) (f : A -> A) (l : list A) : list A :=
  match l, n with
  | [], _ => []
  | x :: l', O => f x :: l'
  | x :: l', S n' => x :: update n' f l'
  end.

(** ** Web Audio operations *)

Definition new_source : AudioBufferSourceNode :=
  {| buffer := None; src_outputs := []; started := None; stopped := false;
     onended := None |}.

(** A fresh biquad filter is a low-pass at 350 Hz with 0 dB gain. *)
Definition new_filter : BiquadFilterNode :=
  {| ftype := lowpass; frequency := 350;
     gain := {| value := 0; automation := None |}; flt_outputs := [] |}.

Definition new_analyser : AnalyserNode :=
  {| fftSize := 2048; an_outputs := [] |}.

Definition update_source (n : nat)
  (f : AudioBufferSourceNode -> AudioBufferSourceNode) : M unit :=
  modify (with_audio (fun a => set_sources (update n f (sources a)) a)).
Definition update_filter (n : nat)
  (f : BiquadFilterNode -> BiquadFilterNode) : M unit :=
  modify (with_audio (fun a => set_filters (update n f (filters a)) a)).
Definition update_analyser (n : nat) (f : AnalyserNode -> AnalyserNode)
  : M unit :=
  modify (with_audio (fun a => set_analysers (update n f (analysers a)) a)).

(** [audioContext.createBufferSource()] *)
Definition createBufferSource : M nat :=
  fun w =>
    Ok (length (sources (audio w)))
       (with_audio (fun a => set_sources (sources a ++ [new_source]) a) w).

(** [audioContext.createBiquadFilter()] *)
Definition createBiquadFilter : M nat :=
  fun w =>
    Ok (length (filters (audio w)))
       (with_audio (fun a => set_filters (filters a ++ [new_filter]) a) w).

(** [audioContext.createAnalyser()] *)
Definition createAnalyser : M nat :=
  fun w =>
    Ok (length (analysers (audio w)))
       (with_audio (fun a => set_analysers (analysers a ++ [new_analyser]) a) w).

(** [audioContext.resume()] *)
Definition resume : M unit := modify (with_audio (set_state running)).

Definition source_set_buffer (n : nat) (b : AudioBuffer) : M unit :=
  update_source n (fun s =>
    {| buffer := Some b; src_outputs := src_outputs s; started := started s;
       stopped := stopped s; onended := onended s |}).

Definition source_set_onended (n : nat) (b : AudioBuffer) : M unit :=
  update_source n (fun s =>
    {| buffer := buffer s; src_outputs := src_outputs s; started := started s;
       stopped := stopped s; onended := Some b |}).

Definition source_connect (n : nat) (t : Target) : M unit :=
  update_source n (fun s =>
    {| buffer := buffer s; src_outputs := src_outputs s ++ [t];
       started := started s; stopped := stopped s; onended := onended s |}).

(** [source.disconnect()]: drops every outgoing connection of the node. *)
Definition disconnected (s : AudioBufferSourceNode) : AudioBufferSourceNode :=
  {| buffer := buffer s; src_outputs := []; started := started s;
     stopped := stopped s; onended := onended s |}.

Definition source_disconnect (n : nat) : M unit :=
  update_source n disconnected.

(** [source.start(0, offset)]: [InvalidStateError] when the node was started
    before, [RangeError] when the offset is negative. *)
Definition source_start (n : nat) (offset : Q) : M unit :=
  fun w =>
    match nth_error (sources (audio w)) n with
    | None => Ok tt w
    | Some s =>
        match started s with
        | Some _ => Throw InvalidStateError w
        | None =>
            if Qle_bool 0 offset then
              update_source n (fun s =>
                {| buffer := buffer s; src_outputs := src_outputs s;
                   started := Some offset; stopped := stopped s;
                   onended := onended s |}) w
            else Throw RangeError w
        end
    end.

(** [source.stop()]: [InvalidStateError] when the node was never started;
    on a node that has stopped already the call has no effect. *)
Definition halted (s : AudioBufferSourceNode) : AudioBufferSourceNode :=
  {| buffer := buffer s; src_outputs := src_outputs s; started := started s;
     stopped := true; onended := onended s |}.

Definition source_stop (n : nat) : M unit :=
  fun w =>
    match nth_error (sources (audio w)) n with
    | None => Ok tt w
    | Some s =>
        match started s with
        | None => Throw InvalidStateError w
        | Some _ => update_source n halted w
        end
    end.

Definition filter_set_type (n : nat) (t : BiquadFilterType) : M unit :=
  update_filter n (fun f =>
    {| ftype := t; frequency := frequency f; gain := gain f;
       flt_outputs := flt_outputs f |}).

Definition filter_set_frequency (n : nat) (v : Q) : M unit :=
  update_filter n (fun f =>
    {| ftype := ftype f; frequency := v; gain := gain f;
       flt_outputs := flt_outputs f |}).

(** [filter.gain.value = v] *)
Definition filter_set_gain (n : nat) (v : Q) : M unit :=
  update_filter n (fun f =>
    {| ftype := ftype f; frequency := frequency f;
       gain := {| value := v; automation := automation (gain f) |};
       flt_outputs := flt_outputs f |}).

(** [filter.gain.setTargetAtTime(target, startTime, timeConstant)]:
    [RangeError] when a time is negative.  The value then approaches the
    target exponentially; the node is neither recreated nor reconnected. *)
Definition retargeted (tg t0 tc : Q) (f : BiquadFilterNode) : BiquadFilterNode :=
  {| ftype := ftype f; frequency := frequency f;
     gain := {| value := value (gain f);
                automation := Some {| target := tg; startTime := t0;
                                      timeConstant := tc |} |};
     flt_outputs := flt_outputs f |}.

Definition filter_gain_setTargetAtTime (n : nat) (tg t0 tc : Q) : M unit :=
  if Qle_bool 0 t0 && Qle_bool 0 tc then update_filter n (retargeted tg t0 tc)
  else throw RangeError.

Definition filter_connect (n : nat) (t : Target) : M unit :=
  update_filter n (fun f =>
    {| ftype := ftype f; frequency := frequency f; gain := gain f;
       flt_outputs := flt_outputs f ++ [t] |}).

Definition analyser_set_fftSize (n : nat) (z : Z) : M unit :=
  update_analyser n (fun a => {| fftSize := z; an_outputs := an_outputs a |}).

Definition analyser_connect (n : nat) (t : Target) : M unit :=
  update_analyser n (fun a =>
    {| fftSize := fftSize a; an_outputs := an_outputs a ++ [t] |}).

(** ** Animation frames and canvas *)

Definition set_frames (l : list (Z * DrawClosure)) (p : Page) : Page :=
  {| frames := l; lastHandle := lastHandle p; context2d := context2d p;
     painted := painted p |}.

(** [requestAnimationFrame(cb)]: queues the callback under a fresh positive
    handle. *)
Definition requestAnimationFrame (c : DrawClosure) : M Z :=
  fun w =>
    let h := (Z.max 0 (lastHandle (page w)) + 1)%Z in
    Ok h (with_page (fun p =>
            {| frames := frames p ++ [(h, c)]; lastHandle := h;
               context2d := context2d p; painted := painted p |}) w).

(** [cancelAnimationFrame(h)] *)
Definition without_frame (h : Z) (p : Page) : Page :=
  set_frames (filter (fun e => negb (Z.eqb (fst e) h)) (frames p)) p.

Definition cancelAnimationFrame (h : Z) : M unit :=
  modify (with_page (without_frame h)).

(** One pass of the drawing code: the analyser is read and the bars are
    painted. *)
Definition paint : M unit :=
  modify (with_page (fun p =>
    {| frames := frames p; lastHandle := lastHandle p;
       context2d := context2d p; painted := S (painted p) |})).

(** ** The component's functions *)

Definition setIsPlaying (b : bool) : M unit :=
  modify (with_scope (set_isPlaying b)).

(** [draw] (lines 119-147), closed over the render's [isPlaying]: the guard,
    the rescheduling, then the painting. *)
Definition draw (c : DrawClosure) : M unit :=
  if negb (seen_isPlaying c) then ret tt
  else
    h <- requestAnimationFrame c ;;
    modify (with_refs (set_animationFrameRef h)) ;;
    an <- gets (fun w => analyserRef (refs w)) ;;
    match an with
    | None => ret tt
    | Some _ => paint
    end.

(** [visualize] (lines 109-150): the three early returns, then the first
    call of [draw]. *)
Definition visualize (s : Scope) : M unit :=
  an <- gets (fun w => analyserRef (refs w)) ;;
  cv <- gets (fun w => canvasRef (refs w)) ;;
  match an, cv with
  | Some _, Some _ =>
      has2d <- gets (fun w => context2d (page w)) ;;
      if has2d then draw {| seen_isPlaying := isPlaying s |} else ret tt
  | _, _ => ret tt
  end.

(** The [source.onended] handler installed by [playAudio] (lines 70-78);
    [buf] is the [audioBuffer] the handler closed over. *)
Definition onended_handler (buf : AudioBuffer) : M unit :=
  now <- gets (fun w => currentTime (audio w)) ;;
  st <- gets (fun w => startTimeRef (refs w)) ;;
  let elapsed := now - st in
  if Qle_bool (duration buf) elapsed then
    setIsPlaying false ;;
    modify (with_refs (set_pausedTimeRef 0))
  else ret tt.

(** [playAudio] (lines 35-81). *)
Definition playAudio (s : Scope) : M unit :=
  match audioBuffer s, audioContext s with
  | Some buf, Some _ =>
      st <- gets (fun w => state (audio w)) ;;
      match st with suspended => resume | running => ret tt end ;;
      source <- createBufferSource ;;
      source_set_buffer source buf ;;
      flt <- createBiquadFilter ;;
      filter_set_type flt lowshelf ;;
      filter_set_frequency flt 200 ;;
      filter_set_gain flt (bassBoost s * 1.5) ;;
      analyser <- createAnalyser ;;
      analyser_set_fftSize analyser 256 ;;
      source_connect source (ToFilter flt) ;;
      filter_connect flt (ToAnalyser analyser) ;;
      analyser_connect analyser ToDestination ;;
      modify (with_refs (set_sourceRef (Some source))) ;;
      modify (with_refs (set_bassFilterRef (Some flt))) ;;
      modify (with_refs (set_analyserRef (Some analyser))) ;;
      paused <- gets (fun w => pausedTimeRef (refs w)) ;;
      let offset := js_rem paused (duration buf) in
      source_start source offset ;;
      now <- gets (fun w => currentTime (audio w)) ;;
      modify (with_refs (set_startTimeRef (now - offset))) ;;
      setIsPlaying true ;;
      source_set_onended source buf ;;
      visualize s
  | _, _ => ret tt
  end.

(** [pauseAudio] (lines 83-93). *)
Definition pauseAudio (s : Scope) : M unit :=
  src <- gets (fun w => sourceRef (refs w)) ;;
  match src, isPlaying s, audioContext s with
  | Some source, true, Some _ =>
      source_stop source ;;
      source_disconnect source ;;
      now <- gets (fun w => currentTime (audio w)) ;;
      st <- gets (fun w => startTimeRef (refs w)) ;;
      modify (with_refs (set_pausedTimeRef (now - st))) ;;
      setIsPlaying false ;;
      h <- gets (fun w => animationFrameRef (refs w)) ;;
      if truthy h then cancelAnimationFrame h else ret tt
  | _, _, _ => ret tt
  end.

(** [stopAudio] (lines 95-107). *)
Definition stopAudio : M unit :=
  src <- gets (fun w => sourceRef (refs w)) ;;
  match src with
  | Some source =>
      try_catch (source_stop source) (fun _ => ret tt) ;;
      source_disconnect source
  | None => ret tt
  end ;;
  h <- gets (fun w => animationFrameRef (refs w)) ;;
  (if truthy h then cancelAnimationFrame h else ret tt) ;;
  setIsPlaying false ;;
  modify (with_refs (set_pausedTimeRef 0)).

(** [useEffect(..., [audioBuffer])] (lines 21-25): reset when a new buffer
    arrives. *)
Definition audioBuffer_effect : M unit :=
  stopAudio ;;
  modify (with_refs (set_pausedTimeRef 0)).

(** [useEffect(..., [bassBoost, audioContext])] (lines 28-33): live update
    of the gain. *)
Definition bassBoost_effect (s : Scope) : M unit :=
  flt <- gets (fun w => bassFilterRef (refs w)) ;;
  match flt, audioContext s with
  | Some f, Some _ =>
      now <- gets (fun w => currentTime (audio w)) ;;
      filter_gain_setTargetAtTime f (bassBoost s * 1.5) now 0.1
  | _, _ => ret tt
  end.

(** ** The component in its page *)

(** What can happen to a mounted player. *)
Inductive Event :=
| Click                                   (** the Play / Pause button *)
| NewAudioBuffer (b : option AudioBuffer) (** the [audioBuffer] prop changes *)
| SetBassBoost (l : Q)                    (** the [bassBoost] prop *)
| SetAudioContext (c : option ContextHandle)
| Ended (n : nat)                         (** [ended] is dispatched on source [n] *)
| AnimationFrame (h : Z)                  (** the frame callback [h] is due *)
| Advance (dt : Q).                       (** the audio clock moves on *)

Definition the_canvas : Canvas := {| width := 600; height := 100 |}.

(** Commit of a render: the [<canvas>] is in the tree exactly when
    [audioBuffer] is not null. *)
Definition commit : M unit :=
  s <- gets scope ;;
  modify (with_refs (set_canvasRef
    match audioBuffer s with Some _ => Some the_canvas | None => None end)).

Definition is_some {A} (o : option A) : bool :=
  match o with Some _ => true | None => false end.

(** One event.  React renders again before the next event is handled, so a
    handler runs with the scope of the current world.  Without a buffer the
    component renders no button (lines 165-171); otherwise the button is
    Play when [isPlaying] is false and Pause when it is true (lines
    190-211).  A prop change commits the new render and runs the effects
    whose dependencies changed. *)
Definition step (e : Event) : M unit :=
  match e with
  | Click =>
      s <- gets scope ;;
      match audioBuffer s with
      | None => ret tt
      | Some _ => if isPlaying s then pauseAudio s else playAudio s
      end
  | NewAudioBuffer b =>
      old <- gets (fun w => audioBuffer (scope w)) ;;
      modify (with_scope (set_audioBuffer b)) ;;
      commit ;;
      if is_some old || is_some b then audioBuffer_effect else ret tt
  | SetBassBoost l =>
      old <- gets (fun w => bassBoost (scope w)) ;;
      modify (with_scope (set_bassBoost l)) ;;
      if Qeq_bool old l then ret tt
      else (s <- gets scope ;; bassBoost_effect s)
  | SetAudioContext c =>
      old <- gets (fun w => audioContext (scope w)) ;;
      modify (with_scope (set_audioContext c)) ;;
      if Bool.eqb (is_some old) (is_some c) then ret tt
      else (s <- gets scope ;; bassBoost_effect s)
  | Ended n =>
      src <- gets (fun w => nth_error (sources (audio w)) n) ;;
      match src with
      | Some s =>
          match onended s with
          | Some buf => onended_handler buf
          | None => ret tt
          end
      | None => ret tt
      end
  | AnimationFrame h =>
      fr <- gets (fun w => frames (page w)) ;;
      match find (fun e => Z.eqb (fst e) h) fr with
      | Some (_, c) =>
          (* the callback leaves the queue and runs *)
          modify (with_page (without_frame h)) ;; draw c
      | None => ret tt
      end
  | Advance dt =>
      modify (with_audio (fun a => set_currentTime (currentTime a + dt) a))
  end.

Fixpoint run (tr : list Event) : M unit :=
  match tr with
  | [] => ret tt
  | e :: tr' => step e ;; run tr'
  end.

(** The first render ([useState(false)], empty refs) in a page whose audio
    clock reads [now]. *)
Definition initial (buf : option AudioBuffer) (ctx : option ContextHandle)
  (bass : Q) (now : Q) (st : AudioContextState) (has2d : bool) : World :=
  {| scope := {| audioBuffer := buf; audioContext := ctx; bassBoost := bass;
                 isPlaying := false |};
     refs := {| canvasRef := None; sourceRef := None; bassFilterRef := None;
                startTimeRef := 0; pausedTimeRef := 0;
                animationFrameRef := 0; analyserRef := None |};
     audio := {| currentTime := now; state := st; sources := [];
                 filters := []; analysers := [] |};
     page := {| frames := []; lastHandle := 0; context2d := has2d;
                painted := 0 |} |}.

(** Mounting: commit, then both effects in source order. *)
Definition mount : M unit :=
  commit ;;
  audioBuffer_effect ;;
  s <- gets scope ;;
  bassBoost_effect s.

(** The whole life of a player: mount, then the events. *)
Definition session (tr : list Event) : M unit := mount ;; run tr.

(** Events the environment can produce: the clock never runs backwards and a
    buffer has a positive duration. *)
Definition positive_duration (b : option AudioBuffer) : bool :=
  match b with
  | Some buf => negb (Qle_bool (duration buf) 0)
  | None => true
  end.

Definition legal (e : Event) : bool :=
  match e with
  | NewAudioBuffer b => positive_duration b
  | Advance dt => Qle_bool 0 dt
  | _ => true
  end.

(** ** Observations *)

Definition world_of (o : Outcome unit) : World :=
  match o with Ok _ w => w | Throw _ w => w end.

Definition succeeds (o : Outcome unit) : bool :=
  match o with Ok _ _ => true | Throw _ _ => false end.

Definition source_at (w : World) (n : nat) : option AudioBufferSourceNode :=
  nth_error (sources (audio w)) n.
Definition filter_at (w : World) (n : nat) : option BiquadFilterNode :=
  nth_error (filters (audio w)) n.
Definition analyser_at (w : World) (n : nat) : option AnalyserNode :=
  nth_error (analysers (audio w)) n.

(** The source, filter and analyser of the session graph the refs point to
    have no outgoing connection left. *)
Definition session_graph_disconnected (w : World) : bool :=
  match sourceRef (refs w) with
  | Some n => match source_at w n with
              | Some s => match src_outputs s with [] => true | _ => false end
              | None => true
              end
  | None => true
  end &&
  match bassFilterRef (refs w) with
  | Some n => match filter_at w n with
              | Some f => match flt_outputs f with [] => true | _ => false end
              | None => true
              end
  | None => true
  end &&
  match analyserRef (refs w) with
  | Some n => match analyser_at w n with
              | Some a => match an_outputs a with [] => true | _ => false end
              | None => true
              end
  | None => true
  end.

(** The nodes of a session graph as [playAudio] leaves them: the source
    playing [buf] from [off] into filter [flt], the low-shelf filter with
    gain [g] feeding analyser [an], and the analyser feeding the output. *)
Definition session_source (buf : AudioBuffer) (flt : nat) (off : Q)
  : AudioBufferSourceNode :=
  {| buffer := Some buf; src_outputs := [ToFilter flt]; started := Some off;
     stopped := false; onended := Some buf |}.
Definition session_filter (g : Q) (an : nat) : BiquadFilterNode :=
  {| ftype := lowshelf; frequency := 200;
     gain := {| value := g; automation := None |};
     flt_outputs := [ToAnalyser an] |}.
Definition session_analyser : AnalyserNode :=
  {| fftSize := 256; an_outputs := [ToDestination] |}.

(** Source [n] of [w] is halted and has no outgoing connection in [w'],
    while the filters and analysers are as they were. *)
Definition source_torn_down (w w' : World) (n : nat) : Prop :=
  (exists s', source_at w' n = Some s' /\
              src_outputs s' = [] /\ stopped s' = true) /\
  filters (audio w') = filters (audio w) /\
  analysers (audio w') = analysers (audio w).

(** [stop()] under [try]/[catch]: a source that was never started is left
    alone. *)
Definition halted_quietly (s : AudioBufferSourceNode) : AudioBufferSourceNode :=
  if is_some (started s) then halted s else s.

(** The page after [if (animationFrameRef.current) cancelAnimationFrame(...)]. *)
Definition frame_cancelled (w : World) : Page :=
  if truthy (animationFrameRef (refs w))
  then without_frame (animationFrameRef (refs w)) (page w)
  else page w.

(** What holds of every world a player can be in. *)
Record Inv (w : World) : Prop := {
  inv_now : 0 <= currentTime (audio w);
  inv_paused : 0 <= pausedTimeRef (refs w);
  inv_start : startTimeRef (refs w) <= currentTime (audio w);
  inv_buffer : forall b, audioBuffer (scope w) = Some b -> 0 < duration b;
  inv_source : forall n, sourceRef (refs w) = Some n ->
      exists s, source_at w n = Some s /\ started s <> None;
  inv_frames : frames (page w) = [];
  inv_handle : animationFrameRef (refs w) = 0%Z;
  inv_painted : painted (page w) = 0%nat
}.

(** ** A five-second buffer in a fresh page *)

Definition buf5 : AudioBuffer := {| duration := 5 |}.
Definition w5 : World :=
  world_of (mount (initial (Some buf5) (Some TheContext) 0 0 suspended true)).

(** The same player two seconds into playback, and paused there. *)
Definition w5_playing : World := world_of (run [Click; Advance 2] w5).
Definition w5_paused : World := world_of (run [Click] w5_playing).

(** ** The graphs a player has built *)

(** The shape of the node tables.  Session [i] owns source [i], filter [i]
    and analyser [i]; the refs point to the nodes of the last session. *)
Record Graph_ok (w : World) : Prop := {
  graph_filters : length (filters (audio w)) = length (sources (audio w));
  graph_analysers : length (analysers (audio w)) = length (sources (audio w));
  graph_source : forall i s, source_at w i = Some s ->
      started s <> None /\
      ((stopped s = false /\ src_outputs s = [ToFilter i]) \/
       (stopped s = true /\ src_outputs s = []));
  graph_filter : forall i f, filter_at w i = Some f ->
      ftype f = lowshelf /\ frequency f = 200 /\
      flt_outputs f = [ToAnalyser i];
  graph_analyser : forall i a, analyser_at w i = Some a ->
      fftSize a = 256%Z /\ an_outputs a = [ToDestination];
  graph_refs :
      match sourceRef (refs w) with
      | Some n => bassFilterRef (refs w) = Some n /\
                  analyserRef (refs w) = Some n /\
                  S n = length (sources (audio w))
      | None => bassFilterRef (refs w) = None /\
                analyserRef (refs w) = None /\
                sources (audio w) = []
      end;
  graph_playing : isPlaying (scope w) = true ->
      exists n s, sourceRef (refs w) = Some n /\ source_at w n = Some s /\
                  stopped s = false
}.

(** The player shows a button and has an audio context to play with. *)
Definition ready (w : World) : bool :=
  is_some (audioBuffer (scope w)) && is_some (audioContext (scope w)).

(** The event is a click on Play that [playAudio] acts upon. *)
Definition starts_session (e : Event) (w : World) : bool :=
  match e with
  | Click => ready w && negb (isPlaying (scope w))
  | _ => false
  end.

(** ** Spectrum bars *)

(** A [fillRect(x, y, w, h)] call. *)
Record Rect := { rect_x : Q; rect_y : Q; rect_w : Q; rect_h : Q }.

(** The [for] loop of [draw] (lines 134-146) from bin [i] on: [x] is the
    running abscissa, [data] the magnitudes not drawn yet. *)
Fixpoint bars_from (canvas : Canvas) (barWidth x : Q) (data : list Z)
  : list Rect :=
  match data with
  | [] => []
  | v :: rest =>
      let barHeight := inject_Z v / 2 in
      {| rect_x := x; rect_y := inject_Z (height canvas) - barHeight;
         rect_w := barWidth; rect_h := barHeight |}
      :: bars_from canvas barWidth (x + (barWidth + 1)) rest
  end.

(** The bars of one frame (lines 130-146); [data] is the [Uint8Array] filled
    by the analyser, of length [bufferLength]. *)
Definition bars (canvas : Canvas) (data : list Z) : list Rect :=
  let bufferLength := Z.of_nat (length data) in
  let barWidth := (inject_Z (width canvas) / inject_Z bufferLength) * 2.5 in
  bars_from canvas barWidth 0 data.

(** [analyser.frequencyBinCount] for the [fftSize] that [playAudio] sets. *)
Definition frequencyBinCount : nat := 128.

(** ** Download *)

Record Blob := { blob_id : nat }.

(** The [<a>] element built by [handleDownload]; [href] is an object URL,
    named by its number. *)
Record AnchorElement := {
  style_display : string;
  href : nat;
  download : string
}.

(** The part of the page [handleDownload] works on. *)
Record Document := {
  (** children of [document.body], by node number *)
  body : list (nat * option AnchorElement);
  nextNode : nat;
  (** live object URLs and the blobs they name *)
  objectURLs : list (nat * Blob);
  nextURL : nat;
  (** downloads started: content and file name *)
  saved : list (Blob * string)
}.

(** Node and URL numbers in use are below the next ones to be given out. *)
Definition fresh_ids (d : Document) : bool :=
  forallb (fun c => Nat.ltb (fst c) (nextNode d)) (body d) &&
  forallb (fun u => Nat.ltb (fst u) (nextURL d)) (objectURLs d).

(** [URL.createObjectURL(blob)] *)
Definition createObjectURL (b : Blob) (d : Document) : nat * Document :=
  (nextURL d,
   {| body := body d; nextNode := nextNode d;
      objectURLs := objectURLs d ++ [(nextURL d, b)];
      nextURL := S (nextURL d); saved := saved d |}).

(** [URL.revokeObjectURL(url)] *)
Definition revokeObjectURL (u : nat) (d : Document) : Document :=
  {| body := body d; nextNode := nextNode d;
     objectURLs := filter (fun e => negb (Nat.eqb (fst e) u)) (objectURLs d);
     nextURL := nextURL d; saved := saved d |}.

(** [document.createElement('a')]: a node number for the new element. *)
Definition createElement (d : Document) : nat * Document :=
  (nextNode d,
   {| body := body d; nextNode := S (nextNode d);
      objectURLs := objectURLs d; nextURL := nextURL d; saved := saved d |}).

(** [document.body.appendChild(a)] *)
Definition appendChild (n : nat) (a : AnchorElement) (d : Document)
  : Document :=
  {| body := body d ++ [(n, Some a)]; nextNode := nextNode d;
     objectURLs := objectURLs d; nextURL := nextURL d; saved := saved d |}.

(** [document.body.removeChild(a)]: [None] stands for the [NotFoundError]
    raised when the node is not a child of the body. *)
Definition removeChild (n : nat) (d : Document) : option Document :=
  if existsb (fun c => Nat.eqb (fst c) n) (body d) then
    Some {| body := filter (fun c => negb (Nat.eqb (fst c) n)) (body d);
            nextNode := nextNode d; objectURLs := objectURLs d;
            nextURL := nextURL d; saved := saved d |}
  else None.

(** [a.click()] on an anchor with a [download] attribute: the blob behind
    the object URL, if the URL is live, is saved under that name. *)
Definition anchor_click (a : AnchorElement) (d : Document) : Document :=
  match find (fun e => Nat.eqb (fst e) (href a)) (objectURLs d) with
  | Some (_, b) =>
      {| body := body d; nextNode := nextNode d; objectURLs := objectURLs d;
         nextURL := nextURL d; saved := saved d ++ [(b, download a)] |}
  | None => d
  end.

(** [`lyrical-studio-${Date.now()}.wav`]; [now] is [Date.now()]. *)
Definition download_name (now : Z) : string :=
  ("lyrical-studio-" ++ NilZero.string_of_int (Z.to_int now) ++ ".wav")%string.

(** [handleDownload] (lines 152-163). *)
Definition handleDownload (blob : option Blob) (now : Z) (d : Document)
  : option Document :=
  match blob with
  | None => Some d
  | Some b =>
      let (url, d1) := createObjectURL b d in
      let (node, d2) := createElement d1 in
      let a := {| style_display := "none"; href := url;
                  download := download_name now |} in
      let d3 := appendChild node a d2 in
      let d4 := anchor_click a d3 in
      let d5 := revokeObjectURL url d4 in
      removeChild node d5
  end.

(** ** Voice selector ([src/components/VoiceSelector.tsx]) *)

Inductive Gender := Male | Female.

Record VoiceOption := { name : string; gender : Gender; style : string }.

(** [VOICES] of [src/constants.ts]. *)
Definition VOICES : list VoiceOption :=
  [ {| name := "Zephyr"; gender := Female; style := "Bright" |};
    {| name := "Puck"; gender := Male; style := "Upbeat" |};
    {| name := "Charon"; gender := Male; style := "Informative" |};
    {| name := "Kore"; gender := Female; style := "Firm" |};
    {| name := "Fenrir"; gender := Male; style := "Excitable" |};
    {| name := "Leda"; gender := Female; style := "Youthful" |};
    {| name := "Orus"; gender := Male; style := "Firm" |};
    {| name := "Aoede"; gender := Female; style := "Breezy" |};
    {| name := "Callirrhoe"; gender := Female; style := "Easy-going" |};
    {| name := "Autonoe"; gender := Female; style := "Bright" |};
    {| name := "Enceladus"; gender := Male; style := "Breathy" |};
    {| name := "Iapetus"; gender := Male; style := "Clear" |};
    {| name := "Umbriel"; gender := Male; style := "Easy-going" |};
    {| name := "Algieba"; gender := Male; style := "Smooth" |};
    {| name := "Despina"; gender := Female; style := "Smooth" |};
    {| name := "Erinome"; gender := Female; style := "Clear" |};
    {| name := "Algenib"; gender := Male; style := "Gravelly" |};
    {| name := "Rasalgethi"; gender := Female; style := "Informative" |};
    {| name := "Laomedeia"; gender := Female; style := "Upbeat" |};
    {| name := "Achernar"; gender := Male; style := "Soft" |};
    {| name := "Alnilam"; gender := Male; style := "Firm" |};
    {| name := "Schedar"; gender := Male; style := "Even" |};
    {| name := "Gacrux"; gender := Female; style := "Mature" |};
    {| name := "Pulcherrima"; gender := Female; style := "Forward" |};
    {| name := "Achird"; gender := Female; style := "Friendly" |};
    {| name := "Zubenelgenubi"; gender := Male; style := "Casual" |};
    {| name := "Vindemiatrix"; gender := Female; style := "Gentle" |};
    {| name := "Sadachbia"; gender := Female; style := "Lively" |};
    {| name := "Sadaltager"; gender := Female; style := "Knowledgeable" |};
    {| name := "Sulafat"; gender := Female; style := "Warm" |} ]%string.

(** The [filterGender] state: ['All' | 'Male' | 'Female']. *)
Inductive FilterGender := All | Only (g : Gender).

Definition gender_eqb (a b : Gender) : bool :=
  match a, b with
  | Male, Male | Female, Female => true
  | _, _ => false
  end.

(** [filteredVoices] (lines 14-17). *)
Definition filteredVoices (filterGender : FilterGender) : list VoiceOption :=
  match filterGender with
  | All => VOICES
  | Only g => filter (fun v => gender_eqb (gender v) g) VOICES
  end.

(** [isSelected] of a voice button (line 45). *)
Definition isSelected (selectedVoice : string) (voice : VoiceOption) : bool :=
  String.eqb selectedVoice (name voice).

(** The buttons rendered as selected. *)
Definition highlighted (selectedVoice : string) (filterGender : FilterGender)
  : list VoiceOption :=
  filter (isSelected selectedVoice) (filteredVoices filterGender).

(** ** Mode switch ([src/App.tsx], lines 95-103) *)

Inductive GenerationMode := SINGLE | MULTI.

Definition SAMPLE_SINGLE_PROMPT : string :=
  "Say cheerfully: Have a wonderful day!"%string.

Definition SAMPLE_MULTI_PROMPT : string :=
  "Joe: How's it going today Jane?
Jane: Not too bad, how about you?"%string.

(** The initial [text] state (line 68). *)
Definition initial_text (mode : GenerationMode) : string :=
  match mode with
  | SINGLE => SAMPLE_SINGLE_PROMPT
  | MULTI => SAMPLE_MULTI_PROMPT
  end.

(** The effect on [mode]: the text after it has run. *)
Definition mode_effect (mode : GenerationMode) (text : string) : string :=
  match mode with
  | SINGLE =>
      if String.eqb text SAMPLE_MULTI_PROMPT then SAMPLE_SINGLE_PROMPT
      else text
  | MULTI =>
      if String.eqb text SAMPLE_SINGLE_PROMPT then SAMPLE_MULTI_PROMPT
      else text
  end.

(** ** Scenario values for the added properties *)

Definition doc0 : Document :=
  {| body := [(0%nat, None)]; nextNode := 1; objectURLs := []; nextURL := 0;
     saved := [] |}.

(** * Properties *)

(** ** Arithmetic of [%] *)

Lemma Qtrunc_nonneg (q : Q) : 0 <= q -> Qtrunc q = Qfloor q.
Proof.
  destruct q as [n d]. unfold Qle, Qtrunc, Qfloor. simpl. intros H.
  apply Z.quot_div_nonneg; lia.
Qed.

Lemma Qdiv_nonneg (a b : Q) : 0 <= a -> 0 < b -> 0 <= a / b.
Proof.
  intros Ha Hb. apply Qle_shift_div_l; [exact Hb|]. lra.
Qed.

Lemma js_rem_bounds (a b : Q) :
  0 <= a -> 0 < b -> 0 <= js_rem a b /\ js_rem a b < b.
Proof.
  intros Ha Hb. unfold js_rem.
  rewrite (Qtrunc_nonneg _ (Qdiv_nonneg a b Ha Hb)).
  pose proof (Qfloor_le (a / b)) as Hlo.
  pose proof (Qlt_floor (a / b)) as Hhi.
  rewrite inject_Z_plus in Hhi.
  set (k := inject_Z (Qfloor (a / b))) in *.
  assert (E : a == b * (a / b)) by (field; lra).
  assert (L1 : b * k <= b * (a / b)) by (apply Qmult_le_l; assumption).
  assert (L2 : b * (a / b) < b * (k + inject_Z 1))
    by (apply Qmult_lt_l; assumption).
  change (inject_Z 1) with 1 in L2.
  split; lra.
Qed.

Lemma js_rem_small (a b : Q) : 0 <= a -> a < b -> js_rem a b == a.
Proof.
  intros Ha Hb. assert (Hpos : 0 < b) by lra. unfold js_rem.
  rewrite (Qtrunc_nonneg _ (Qdiv_nonneg a b Ha Hpos)).
  assert (Hq0 : 0 <= a / b) by (apply Qdiv_nonneg; assumption).
  assert (Hq1 : a / b < 1) by (apply Qlt_shift_div_r; lra).
  pose proof (Qfloor_le (a / b)) as Hlo.
  pose proof (Qlt_floor (a / b)) as Hhi.
  assert (Hk : Qfloor (a / b) = 0%Z).
  { assert (H1 : (Qfloor (a / b) < 1)%Z).
    { rewrite Zlt_Qlt. change (inject_Z 1) with 1. lra. }
    assert (H2 : (0 < Qfloor (a / b) + 1)%Z).
    { rewrite Zlt_Qlt. change (inject_Z 0) with 0. lra. }
    lia. }
  rewrite Hk. change (inject_Z 0) with 0. lra.
Qed.

Lemma js_rem_zero (b : Q) : 0 < b -> js_rem 0 b == 0.
Proof. intros Hb. apply js_rem_small; lra. Qed.

(** ** Node tables *)

Lemma update_length {A} (f : A -> A) (l : list A) (n : nat) :
  length (update n f l) = length l.
Proof.
  revert n; induction l as [|x l IH]; intros [|n]; simpl; auto.
Qed.

Lemma update_snoc {A} (f : A -> A) (l : list A) (x : A) :
  update (length l) f (l ++ [x]) = l ++ [f x].
Proof. induction l as [|y l IH]; simpl; [reflexivity | now rewrite IH]. Qed.

Lemma nth_error_snoc {A} (l : list A) (x : A) :
  nth_error (l ++ [x]) (length l) = Some x.
Proof. induction l as [|y l IH]; simpl; auto. Qed.

Lemma nth_error_update_same {A} (f : A -> A) (l : list A) (n : nat) :
  nth_error (update n f l) n = option_map f (nth_error l n).
Proof.
  revert n; induction l as [|x l IH]; intros [|n]; simpl; auto.
Qed.

Lemma update_update {A} (f g : A -> A) (l : list A) (n : nat) :
  update n f (update n g l) = update n (fun x => f (g x)) l.
Proof.
  revert n; induction l as [|x l IH]; intros [|n]; simpl; auto.
  now rewrite IH.
Qed.

Lemma filter_filter {A} (p : A -> bool) (l : list A) :
  filter p (filter p l) = filter p l.
Proof.
  induction l as [|x l IH]; simpl; auto.
  destruct (p x) eqn:E; simpl; rewrite ?E, IH; reflexivity.
Qed.

Lemma update_ext_at {A} (f g : A -> A) (l : list A) (n : nat) :
  (forall x, nth_error l n = Some x -> f x = g x) ->
  update n f l = update n g l.
Proof.
  revert n; induction l as [|x l IH]; intros [|n] H; simpl; auto.
  - now rewrite (H x eq_refl).
  - now rewrite IH.
Qed.

(** ** Running the handlers *)

Ltac unfold_ops :=
  unfold source_set_buffer, source_set_onended, source_connect,
    source_disconnect, filter_set_type, filter_set_frequency, filter_set_gain,
    filter_connect, analyser_set_fftSize, analyser_connect,
    createBufferSource, createBiquadFilter, createAnalyser, resume,
    update_source, update_filter, update_analyser, setIsPlaying,
    cancelAnimationFrame, paint, commit.

Ltac unfold_m := unfold bind, gets, modify, ret, throw, try_catch.

Ltac unfold_set :=
  unfold with_scope, with_refs, with_audio, with_page, set_isPlaying,
    set_audioBuffer, set_audioContext, set_bassBoost, set_canvasRef,
    set_sourceRef, set_bassFilterRef, set_startTimeRef, set_pausedTimeRef,
    set_animationFrameRef, set_analyserRef, set_currentTime, set_state,
    set_sources, set_filters, set_analysers.

Arguments visualize : simpl never.
Arguments playAudio : simpl never.
Arguments pauseAudio : simpl never.
Arguments stopAudio : simpl never.
Arguments audioBuffer_effect : simpl never.
Arguments bassBoost_effect : simpl never.
Arguments onended_handler : simpl never.
Arguments step : simpl never.

(** Closed comparisons of rationals, by computation. *)
Ltac qcompute :=
  vm_compute;
  first [reflexivity | discriminate | (let H := fresh in intros H; discriminate H)].

Lemma visualize_idle (s : Scope) (w : World) :
  isPlaying s = false -> visualize s w = Ok tt w.
Proof.
  intros H. unfold visualize, draw. unfold_m. cbn. rewrite H. cbn.
  destruct (analyserRef (refs w)), (canvasRef (refs w)),
    (context2d (page w)); reflexivity.
Qed.

Lemma Refs_ext (r r' : Refs) :
  canvasRef r = canvasRef r' -> sourceRef r = sourceRef r' ->
  bassFilterRef r = bassFilterRef r' -> startTimeRef r = startTimeRef r' ->
  pausedTimeRef r = pausedTimeRef r' ->
  animationFrameRef r = animationFrameRef r' ->
  analyserRef r = analyserRef r' -> r = r'.
Proof. destruct r, r'; cbn; intros; subst; reflexivity. Qed.

Lemma AudioContext_ext (a a' : AudioContext) :
  currentTime a = currentTime a' -> state a = state a' ->
  sources a = sources a' -> filters a = filters a' ->
  analysers a = analysers a' -> a = a'.
Proof. destruct a, a'; cbn; intros; subst; reflexivity. Qed.

Lemma World_ext (w w' : World) :
  scope w = scope w' -> refs w = refs w' -> audio w = audio w' ->
  page w = page w' -> w = w'.
Proof. destruct w, w'; cbn; intros; subst; reflexivity. Qed.

Lemma playAudio_graph (s : Scope) (w : World) (buf : AudioBuffer)
  (h : ContextHandle) :
  audioBuffer s = Some buf -> audioContext s = Some h ->
  0 <= js_rem (pausedTimeRef (refs w)) (duration buf) ->
  let off := js_rem (pausedTimeRef (refs w)) (duration buf) in
  exists w1, playAudio s w = visualize s w1 /\
    scope w1 = set_isPlaying true (scope w) /\
    refs w1 =
      {| canvasRef := canvasRef (refs w);
         sourceRef := Some (length (sources (audio w)));
         bassFilterRef := Some (length (filters (audio w)));
         startTimeRef := currentTime (audio w) - off;
         pausedTimeRef := pausedTimeRef (refs w);
         animationFrameRef := animationFrameRef (refs w);
         analyserRef := Some (length (analysers (audio w))) |} /\
    audio w1 =
      {| currentTime := currentTime (audio w);
         state := running;
         sources := sources (audio w) ++
           [session_source buf (length (filters (audio w))) off];
         filters := filters (audio w) ++
           [session_filter (bassBoost s * 1.5) (length (analysers (audio w)))];
         analysers := analysers (audio w) ++ [session_analyser] |} /\
    page w1 = page w.
Proof.
  intros Hb Hc Hoff off. apply Qle_bool_iff in Hoff.
  unfold playAudio. rewrite Hb, Hc.
  unfold source_start. unfold_ops. unfold_m. cbn.
  destruct (state (audio w)) eqn:Est; cbn;
    rewrite !update_snoc, nth_error_snoc; cbn; rewrite Hoff; cbn;
    (eexists; split; [reflexivity|]);
    (split; [reflexivity|]);
    (split; [apply Refs_ext; reflexivity|]);
    (split; [|reflexivity]);
    (apply AudioContext_ext; cbn; rewrite ?update_snoc, ?Est; reflexivity).
Qed.

(** A click on Play in a world whose paused offset is not negative. *)
Lemma click_play (w : World) (buf : AudioBuffer) (h : ContextHandle) :
  audioBuffer (scope w) = Some buf -> audioContext (scope w) = Some h ->
  isPlaying (scope w) = false ->
  0 < duration buf -> 0 <= pausedTimeRef (refs w) ->
  let off := js_rem (pausedTimeRef (refs w)) (duration buf) in
  exists w1, step Click w = Ok tt w1 /\
    scope w1 = set_isPlaying true (scope w) /\
    refs w1 =
      {| canvasRef := canvasRef (refs w);
         sourceRef := Some (length (sources (audio w)));
         bassFilterRef := Some (length (filters (audio w)));
         startTimeRef := currentTime (audio w) - off;
         pausedTimeRef := pausedTimeRef (refs w);
         animationFrameRef := animationFrameRef (refs w);
         analyserRef := Some (length (analysers (audio w))) |} /\
    audio w1 =
      {| currentTime := currentTime (audio w);
         state := running;
         sources := sources (audio w) ++
           [session_source buf (length (filters (audio w))) off];
         filters := filters (audio w) ++
           [session_filter (bassBoost (scope w) * 1.5)
              (length (analysers (audio w)))];
         analysers := analysers (audio w) ++ [session_analyser] |} /\
    page w1 = page w.
Proof.
  intros Hb Hc Hp Hd Hpaused off.
  destruct (js_rem_bounds _ _ Hpaused Hd) as [Hlo _].
  destruct (playAudio_graph (scope w) w buf h Hb Hc Hlo)
    as (w1 & E & R).
  exists w1. split; [|exact R].
  unfold step. unfold_m. cbn. rewrite Hb, Hp, E.
  apply visualize_idle. exact Hp.
Qed.

Lemma source_stop_started (w : World) (n : nat) (s : AudioBufferSourceNode) :
  source_at w n = Some s -> started s <> None ->
  source_stop n w = update_source n halted w.
Proof.
  intros Hs Hst. unfold source_stop. unfold source_at in Hs. rewrite Hs.
  destruct (started s); [reflexivity | congruence].
Qed.

(** [pauseAudio] while the source of the session is running. *)
Lemma pauseAudio_playing (sc : Scope) (w : World) (n : nat)
  (s : AudioBufferSourceNode) (h : ContextHandle) :
  isPlaying sc = true -> audioContext sc = Some h ->
  sourceRef (refs w) = Some n -> source_at w n = Some s ->
  started s <> None ->
  pauseAudio sc w = Ok tt
    {| scope := set_isPlaying false (scope w);
       refs := set_pausedTimeRef
                 (currentTime (audio w) - startTimeRef (refs w)) (refs w);
       audio := set_sources
                  (update n (fun s => disconnected (halted s))
                     (sources (audio w))) (audio w);
       page := frame_cancelled w |}.
Proof.
  intros Hp Hc Hr Hs Hst. unfold pauseAudio.
  unfold bind at 1. unfold gets at 1. rewrite Hr, Hp, Hc.
  unfold bind at 1. rewrite (source_stop_started w n s Hs Hst).
  unfold frame_cancelled.
  unfold_ops. unfold_m. unfold_set. cbn. rewrite update_update.
  destruct (truthy (animationFrameRef (refs w))); reflexivity.
Qed.

Lemma stopAudio_runs (w : World) :
  stopAudio w = Ok tt
    {| scope := set_isPlaying false (scope w);
       refs := set_pausedTimeRef 0 (refs w);
       audio := match sourceRef (refs w) with
                | Some n =>
                    set_sources
                      (update n (fun s => disconnected (halted_quietly s))
                         (sources (audio w))) (audio w)
                | None => audio w
                end;
       page := frame_cancelled w |}.
Proof.
  unfold stopAudio, frame_cancelled.
  unfold bind at 1. unfold gets at 1.
  destruct (sourceRef (refs w)) as [n|].
  - unfold source_stop. unfold_ops. unfold_m. unfold_set. cbn.
    destruct (nth_error (sources (audio w)) n) as [s|] eqn:En.
    + destruct (started s) eqn:Es; cbn.
      * rewrite update_update.
        rewrite (update_ext_at (fun x => disconnected (halted x))
                   (fun x => disconnected (halted_quietly x))).
        { destruct (truthy (animationFrameRef (refs w))); reflexivity. }
        intros x Hx. rewrite En in Hx. injection Hx as <-.
        unfold halted_quietly. now rewrite Es.
      * rewrite (update_ext_at disconnected
                   (fun x => disconnected (halted_quietly x))).
        { destruct (truthy (animationFrameRef (refs w))); reflexivity. }
        intros x Hx. rewrite En in Hx. injection Hx as <-.
        unfold halted_quietly. now rewrite Es.
    + cbn.
      rewrite (update_ext_at disconnected
                 (fun x => disconnected (halted_quietly x))).
      { destruct (truthy (animationFrameRef (refs w))); reflexivity. }
      intros x Hx. congruence.
  - unfold_ops. unfold_m. unfold_set. cbn.
    destruct (truthy (animationFrameRef (refs w))); destruct (audio w);
      reflexivity.
Qed.

Lemma audioBuffer_effect_runs (w : World) :
  audioBuffer_effect w = Ok tt
    {| scope := set_isPlaying false (scope w);
       refs := set_pausedTimeRef 0 (refs w);
       audio := match sourceRef (refs w) with
                | Some n =>
                    set_sources
                      (update n (fun s => disconnected (halted_quietly s))
                         (sources (audio w))) (audio w)
                | None => audio w
                end;
       page := frame_cancelled w |}.
Proof.
  unfold audioBuffer_effect. unfold bind. rewrite stopAudio_runs.
  reflexivity.
Qed.

Lemma bassBoost_effect_runs (s : Scope) (w : World) :
  0 <= currentTime (audio w) ->
  bassBoost_effect s w = Ok tt
    match bassFilterRef (refs w), audioContext s with
    | Some f, Some _ =>
        with_audio (fun a => set_filters
          (update f (retargeted (bassBoost s * 1.5) (currentTime (audio w)) 0.1)
             (filters a)) a) w
    | _, _ => w
    end.
Proof.
  intros Hnow. apply Qle_bool_iff in Hnow.
  unfold bassBoost_effect, filter_gain_setTargetAtTime.
  unfold_ops. unfold_m. cbn.
  destruct (bassFilterRef (refs w)); [|reflexivity].
  destruct (audioContext s); [|reflexivity].
  rewrite Hnow. reflexivity.
Qed.

Lemma onended_handler_runs (buf : AudioBuffer) (w : World) :
  onended_handler buf w = Ok tt
    (if Qle_bool (duration buf)
          (currentTime (audio w) - startTimeRef (refs w))
     then with_refs (set_pausedTimeRef 0) (with_scope (set_isPlaying false) w)
     else w).
Proof.
  unfold onended_handler. unfold_ops. unfold_m. cbn.
  destruct (Qle_bool _ _); reflexivity.
Qed.

(** ** The invariant *)

Lemma Inv_initial (buf : option AudioBuffer) (ctx : option ContextHandle)
  (bass now : Q) (st : AudioContextState) (has2d : bool) :
  0 <= now -> positive_duration buf = true ->
  exists w, mount (initial buf ctx bass now st has2d) = Ok tt w /\ Inv w.
Proof.
  intros Hnow Hbuf. unfold mount. unfold bind at 1.
  unfold commit. unfold_m. cbn.
  eexists; split; [reflexivity|].
  constructor; cbn; try reflexivity; try lra; try assumption.
  - intros b Hb. subst buf. cbn in Hbuf.
    destruct (Qle_bool (duration b) 0) eqn:E; [discriminate|].
    apply Qnot_le_lt. intros H. apply Qle_bool_iff in H. congruence.
  - intros n H; discriminate.
Qed.

Lemma playAudio_noop (s : Scope) (w : World) :
  audioBuffer s = None \/ audioContext s = None -> playAudio s w = Ok tt w.
Proof.
  intros [H|H]; unfold playAudio; rewrite H;
    [reflexivity | destruct (audioBuffer s); reflexivity].
Qed.

Lemma pauseAudio_noop (s : Scope) (w : World) :
  isPlaying s = false \/ sourceRef (refs w) = None \/ audioContext s = None ->
  pauseAudio s w = Ok tt w.
Proof.
  intros H. unfold pauseAudio. unfold bind at 1. unfold gets at 1.
  destruct (sourceRef (refs w)) as [n|]; [|reflexivity].
  destruct (isPlaying s); [|reflexivity].
  destruct (audioContext s); [|reflexivity].
  destruct H as [H|[H|H]]; discriminate.
Qed.

Lemma started_kept (s : AudioBufferSourceNode) :
  started (disconnected (halted_quietly s)) = started s.
Proof. unfold halted_quietly. destruct (is_some (started s)); reflexivity. Qed.

Lemma positive_duration_lt (b : AudioBuffer) :
  positive_duration (Some b) = true -> 0 < duration b.
Proof.
  cbn. intros H. destruct (Qle_bool (duration b) 0) eqn:E; [discriminate|].
  apply Qnot_le_lt. intros H'. apply Qle_bool_iff in H'. congruence.
Qed.

Lemma frame_cancelled_idle (w : World) :
  animationFrameRef (refs w) = 0%Z -> frame_cancelled w = page w.
Proof. intros H. unfold frame_cancelled. rewrite H. reflexivity. Qed.

Lemma step_Inv (e : Event) (w : World) :
  Inv w -> legal e = true -> exists w', step e w = Ok tt w' /\ Inv w'.
Proof.
  intros I L. destruct e as [|b|l|c|n|h|dt].
  - (* Click *)
    destruct (audioBuffer (scope w)) as [buf|] eqn:Hb.
    2:{ exists w. split; [|exact I]. unfold step. unfold_m. cbn.
        now rewrite Hb. }
    destruct (isPlaying (scope w)) eqn:Hp.
    + (* Pause *)
      assert (E : step Click w = pauseAudio (scope w) w).
      { unfold step. unfold_m. cbn. now rewrite Hb, Hp. }
      rewrite E. clear E.
      destruct (sourceRef (refs w)) as [n|] eqn:Hr.
      2:{ exists w. split; [|exact I]. apply pauseAudio_noop. auto. }
      destruct (audioContext (scope w)) as [h|] eqn:Hc.
      2:{ exists w. split; [|exact I]. apply pauseAudio_noop. auto. }
      destruct (inv_source w I n Hr) as (s & Hs & Hst).
      rewrite (pauseAudio_playing (scope w) w n s h Hp Hc Hr Hs Hst).
      eexists; split; [reflexivity|].
      destruct I as [I1 I2 I3 I4 I5 I6 I7 I8].
      constructor; cbn; auto.
      * lra.
      * intros m Hm. rewrite Hr in Hm. injection Hm as <-.
        unfold source_at in *. cbn. rewrite nth_error_update_same, Hs.
        cbn. eexists; split; [reflexivity|]. exact Hst.
      * rewrite frame_cancelled_idle by assumption. exact I6.
      * rewrite frame_cancelled_idle by assumption. exact I8.
    + (* Play *)
      destruct (audioContext (scope w)) as [h|] eqn:Hc.
      2:{ exists w. split; [|exact I]. unfold step. unfold_m. cbn.
          rewrite Hb, Hp. apply playAudio_noop. auto. }
      destruct I as [I1 I2 I3 I4 I5 I6 I7 I8].
      pose proof (I4 buf Hb) as Hd.
      destruct (click_play w buf h Hb Hc Hp Hd I2)
        as (w1 & E & Hsc & Hrf & Hau & Hpg).
      destruct (js_rem_bounds _ _ I2 Hd) as [Hlo _].
      exists w1. split; [exact E|].
      constructor; rewrite ?Hsc, ?Hrf, ?Hau, ?Hpg; cbn; auto.
      * lra.
      * intros m Hm. injection Hm as <-. unfold source_at. rewrite Hau. cbn.
        rewrite nth_error_snoc. eexists; split; [reflexivity|]. discriminate.
  - (* NewAudioBuffer *)
    destruct I as [I1 I2 I3 I4 I5 I6 I7 I8].
    unfold step. unfold commit. unfold_m. cbn.
    destruct (is_some (audioBuffer (scope w)) || is_some b).
    + rewrite audioBuffer_effect_runs.
      eexists; split; [reflexivity|].
      constructor; cbn; auto.
      * destruct (sourceRef (refs w)); cbn; exact I1.
      * lra.
      * destruct (sourceRef (refs w)); cbn; exact I3.
      * intros b' Hb'. subst b. now apply positive_duration_lt.
      * intros m Hm. destruct (I5 m Hm) as (s & Hs & Hst).
        unfold source_at in *. rewrite Hm. cbn.
        rewrite nth_error_update_same, Hs. cbn.
        eexists; split; [reflexivity|]. now rewrite started_kept.
      * rewrite frame_cancelled_idle by assumption. exact I6.
      * rewrite frame_cancelled_idle by assumption. exact I8.
    + eexists; split; [reflexivity|].
      constructor; cbn; auto.
      intros b' Hb'. subst b. now apply positive_duration_lt.
  - (* SetBassBoost *)
    destruct I as [I1 I2 I3 I4 I5 I6 I7 I8].
    unfold step. unfold_m. cbn.
    destruct (Qeq_bool (bassBoost (scope w)) l).
    + eexists; split; [reflexivity|]. constructor; cbn; auto.
    + rewrite bassBoost_effect_runs by exact I1. cbn.
      eexists; split; [reflexivity|].
      destruct (bassFilterRef (refs w)), (audioContext (scope w));
        constructor; cbn; auto.
  - (* SetAudioContext *)
    destruct I as [I1 I2 I3 I4 I5 I6 I7 I8].
    unfold step. unfold_m. cbn.
    destruct (Bool.eqb (is_some (audioContext (scope w))) (is_some c)).
    + eexists; split; [reflexivity|]. constructor; cbn; auto.
    + rewrite bassBoost_effect_runs by exact I1. cbn.
      eexists; split; [reflexivity|].
      destruct (bassFilterRef (refs w)), c; constructor; cbn; auto.
  - (* Ended *)
    destruct I as [I1 I2 I3 I4 I5 I6 I7 I8].
    unfold step. unfold_m. cbn.
    destruct (nth_error (sources (audio w)) n) as [s|];
      [|exists w; split; [reflexivity | constructor; auto]].
    destruct (onended s) as [buf|];
      [|exists w; split; [reflexivity | constructor; auto]].
    rewrite onended_handler_runs.
    eexists; split; [reflexivity|].
    destruct (Qle_bool _ _); constructor; cbn; auto. lra.
  - (* AnimationFrame *)
    exists w. split; [|exact I].
    unfold step. unfold_m. cbn. rewrite (inv_frames w I). reflexivity.
  - (* Advance *)
    destruct I as [I1 I2 I3 I4 I5 I6 I7 I8].
    cbn in L. apply Qle_bool_iff in L.
    eexists; split; [reflexivity|].
    constructor; cbn; auto; lra.
Qed.

Lemma run_Inv (tr : list Event) (w : World) :
  Inv w -> forallb legal tr = true -> exists w', run tr w = Ok tt w' /\ Inv w'.
Proof.
  revert w. induction tr as [|e tr IH]; intros w I L.
  - exists w. split; [reflexivity | exact I].
  - cbn in L. apply andb_true_iff in L. destruct L as [Le Ltr].
    destruct (step_Inv e w I Le) as (w1 & E1 & I1).
    destruct (IH w1 I1 Ltr) as (w2 & E2 & I2).
    exists w2. split; [|exact I2].
    cbn. unfold bind. rewrite E1. exact E2.
Qed.

Lemma session_Inv (buf : option AudioBuffer) (ctx : option ContextHandle)
  (bass now : Q) (st : AudioContextState) (has2d : bool) (tr : list Event) :
  0 <= now -> positive_duration buf = true -> forallb legal tr = true ->
  exists w, session tr (initial buf ctx bass now st has2d) = Ok tt w /\ Inv w.
Proof.
  intros Hnow Hbuf L.
  destruct (Inv_initial buf ctx bass now st has2d Hnow Hbuf) as (w0 & E0 & I0).
  destruct (run_Inv tr w0 I0 L) as (w & E & I).
  exists w. split; [|exact I].
  unfold session, bind. rewrite E0. exact E.
Qed.

Lemma click_pause (w : World) (buf : AudioBuffer) (h : ContextHandle)
  (n : nat) (s : AudioBufferSourceNode) :
  audioBuffer (scope w) = Some buf -> audioContext (scope w) = Some h ->
  isPlaying (scope w) = true ->
  sourceRef (refs w) = Some n -> source_at w n = Some s ->
  started s <> None ->
  step Click w = Ok tt
    {| scope := set_isPlaying false (scope w);
       refs := set_pausedTimeRef
                 (currentTime (audio w) - startTimeRef (refs w)) (refs w);
       audio := set_sources
                  (update n (fun s => disconnected (halted s))
                     (sources (audio w))) (audio w);
       page := frame_cancelled w |}.
Proof.
  intros Hb Hc Hp Hr Hs Hst.
  rewrite <- (pauseAudio_playing (scope w) w n s h Hp Hc Hr Hs Hst).
  unfold step. unfold_m. cbn. now rewrite Hb, Hp.
Qed.

(** ** Resuming *)

(** One cycle: Play, [dt] of playback, Pause. *)
Lemma play_pause_cycle (w : World) (buf : AudioBuffer) (h : ContextHandle)
  (dt : Q) :
  audioBuffer (scope w) = Some buf -> audioContext (scope w) = Some h ->
  isPlaying (scope w) = false ->
  0 < duration buf -> 0 <= pausedTimeRef (refs w) -> 0 <= dt ->
  exists w2,
    run [Click; Advance dt; Click] w = Ok tt w2 /\
    audioBuffer (scope w2) = Some buf /\ audioContext (scope w2) = Some h /\
    isPlaying (scope w2) = false /\
    pausedTimeRef (refs w2) = currentTime (audio w2) - startTimeRef (refs w2) /\
    pausedTimeRef (refs w2) ==
      js_rem (pausedTimeRef (refs w)) (duration buf) + dt /\
    exists s, source_at w2 (length (sources (audio w))) = Some s /\
              onended s = Some buf.
Proof.
  intros Hb Hc Hp Hd Hpaused Hdt.
  destruct (click_play w buf h Hb Hc Hp Hd Hpaused)
    as (w1 & E1 & Hsc & Hrf & Hau & Hpg).
  set (off0 := js_rem (pausedTimeRef (refs w)) (duration buf)) in *.
  set (n1 := length (sources (audio w))) in *.
  set (w1' := with_audio (fun a => set_currentTime (currentTime a + dt) a) w1).
  assert (E2 : step (Advance dt) w1 = Ok tt w1') by reflexivity.
  assert (Hs1 : source_at w1' n1 =
                Some (session_source buf (length (filters (audio w))) off0)).
  { unfold source_at, w1'. cbn. rewrite Hau. cbn. apply nth_error_snoc. }
  pose proof (click_pause w1' buf h n1
                (session_source buf (length (filters (audio w))) off0)) as E3.
  specialize (E3 ltac:(cbn; rewrite Hsc; exact Hb)
                 ltac:(cbn; rewrite Hsc; exact Hc)
                 ltac:(cbn; rewrite Hsc; reflexivity)
                 ltac:(cbn; rewrite Hrf; reflexivity)
                 Hs1 ltac:(discriminate)).
  match type of E3 with _ = Ok tt ?x => set (w2 := x) in * end.
  exists w2.
  split. { cbn [run]. unfold bind. rewrite E1, E2, E3. reflexivity. }
  split. { unfold w2, w1'. cbn. rewrite Hsc. exact Hb. }
  split. { unfold w2, w1'. cbn. rewrite Hsc. exact Hc. }
  split. { reflexivity. }
  split. { reflexivity. }
  split. { unfold w2, w1'. cbn. rewrite Hrf, Hau. cbn. ring. }
  eexists. split.
  { unfold source_at, w2, w1'. cbn. rewrite Hau. cbn.
    rewrite nth_error_update_same. unfold n1. rewrite nth_error_snoc.
    reflexivity. }
  reflexivity.
Qed.

(** An [ended] event handled while the clock is less than a duration past
    the start reference changes nothing. *)
Lemma ended_ignored (w : World) (n : nat) (s : AudioBufferSourceNode)
  (buf : AudioBuffer) :
  source_at w n = Some s -> onended s = Some buf ->
  currentTime (audio w) - startTimeRef (refs w) < duration buf ->
  step (Ended n) w = Ok tt w.
Proof.
  intros Hs Hh Hlt. unfold step. unfold_m. cbn.
  unfold source_at in Hs. rewrite Hs, Hh, onended_handler_runs.
  destruct (Qle_bool _ _) eqn:Hle; [|reflexivity].
  apply Qle_bool_iff in Hle. lra.
Qed.





(** ** Bass boost *)

(** C2.  For a level [L] in 0..10: a graph built by Play carries a low-shelf
    filter whose gain value is [1.5 * L], set directly (no automation); a
    change of the level while a filter is referenced schedules
    [setTargetAtTime(1.5 * L, now, 0.1)] on that same filter, leaves the
    current gain value, the type, the frequency and the connections of the
    filter as they are, and touches neither the sources nor [isPlaying] nor
    the refs. *)
Theorem bass_gain_mapping (L : Z) :
  (0 <= L <= 10)%Z ->
  (forall w buf h,
     audioBuffer (scope w) = Some buf -> audioContext (scope w) = Some h ->
     isPlaying (scope w) = false ->
     0 < duration buf -> 0 <= pausedTimeRef (refs w) ->
     bassBoost (scope w) = inject_Z L ->
     exists w1 n f,
       step Click w = Ok tt w1 /\
       bassFilterRef (refs w1) = Some n /\ filter_at w1 n = Some f /\
       filter_at w n = None /\
       ftype f = lowshelf /\ frequency f = 200 /\
       automation (gain f) = None /\
       value (gain f) == 1.5 * inject_Z L) /\
  (forall w n f h,
     bassFilterRef (refs w) = Some n -> filter_at w n = Some f ->
     audioContext (scope w) = Some h -> 0 <= currentTime (audio w) ->
     ~ bassBoost (scope w) == inject_Z L ->
     exists w1 f1 a,
       step (SetBassBoost (inject_Z L)) w = Ok tt w1 /\
       filter_at w1 n = Some f1 /\
       automation (gain f1) = Some a /\
       target a == 1.5 * inject_Z L /\
       startTime a = currentTime (audio w) /\ timeConstant a = 0.1 /\
       value (gain f1) = value (gain f) /\
       ftype f1 = ftype f /\ frequency f1 = frequency f /\
       flt_outputs f1 = flt_outputs f /\
       sources (audio w1) = sources (audio w) /\
       analysers (audio w1) = analysers (audio w) /\
       length (filters (audio w1)) = length (filters (audio w)) /\
       refs w1 = refs w /\
       isPlaying (scope w1) = isPlaying (scope w)).
Proof.
  intros _. split.
  - intros w buf h Hb Hc Hp Hd Hpaused HL.
    destruct (click_play w buf h Hb Hc Hp Hd Hpaused)
      as (w1 & E1 & Hsc & Hrf & Hau & Hpg).
    exists w1. eexists. eexists.
    split; [exact E1|].
    split; [rewrite Hrf; reflexivity|].
    split; [unfold filter_at; rewrite Hau; cbn [filters]; apply nth_error_snoc|].
    split; [apply nth_error_None; unfold filter_at; lia|].
    split; [reflexivity|]. split; [reflexivity|]. split; [reflexivity|].
    cbn [session_filter gain value]. rewrite HL. ring.
  - intros w n f h Hr Hf Hc Hnow Hne.
    assert (Hq : Qeq_bool (bassBoost (scope w)) (inject_Z L) = false).
    { destruct (Qeq_bool _ _) eqn:E; [|reflexivity].
      apply Qeq_bool_iff in E. contradiction. }
    assert (E : step (SetBassBoost (inject_Z L)) w = Ok tt
              (with_audio (fun a => set_filters
                 (update n (retargeted (inject_Z L * 1.5)
                              (currentTime (audio w)) 0.1) (filters a)) a)
                 (with_scope (set_bassBoost (inject_Z L)) w))).
    { unfold step. unfold_m. cbn. rewrite Hq.
      rewrite bassBoost_effect_runs by exact Hnow. cbn. rewrite Hr, Hc.
      reflexivity. }
    eexists. eexists. eexists.
    split; [exact E|].
    split.
    { unfold filter_at in *.
      cbn [audio with_audio with_scope set_filters filters].
      rewrite nth_error_update_same, Hf. reflexivity. }
    split; [reflexivity|]. split; [cbn [target]; ring|].
    split; [reflexivity|]. split; [reflexivity|]. split; [reflexivity|].
    split; [reflexivity|]. split; [reflexivity|]. split; [reflexivity|].
    split; [reflexivity|]. split; [reflexivity|].
    split; [apply update_length|]. split; reflexivity.
Qed.

Lemma bass_gain_mapping_witness :
  (let w := world_of (step (SetBassBoost 10) w5) in
   exists w1 n f,
     step Click w = Ok tt w1 /\
     bassFilterRef (refs w1) = Some n /\ filter_at w1 n = Some f /\
     automation (gain f) = None /\ value (gain f) == 15) /\
  (exists w1 f1 a,
     step (SetBassBoost 10) w5_playing = Ok tt w1 /\
     filter_at w1 0 = Some f1 /\ automation (gain f1) = Some a /\
     target a == 15 /\ timeConstant a = 0.1 /\
     value (gain f1) == 0 /\
     sources (audio w1) = sources (audio w5_playing) /\
     isPlaying (scope w1) = true).
Proof.
  destruct (bass_gain_mapping 10 ltac:(lia)) as [Fresh Live].
  split.
  - cbv zeta.
    destruct (Fresh (world_of (step (SetBassBoost 10) w5)) buf5 TheContext)
      as (w1 & n & f & E & Hr & Hf & _ & _ & _ & Ha & Hv);
      try reflexivity; try qcompute.
    exists w1, n, f.
    split; [exact E|]. split; [exact Hr|]. split; [exact Hf|].
    split; [exact Ha|]. rewrite Hv. reflexivity.
  - destruct (Live w5_playing 0%nat (session_filter (0 * 1.5) 0) TheContext)
      as (w1 & f1 & a & E & Hf & Ha & Ht & _ & Hc & Hv & _ & _ & _ & Hs & _
          & _ & _ & Hp);
      try reflexivity; try qcompute.
    exists w1, f1, a.
    split; [exact E|]. split; [exact Hf|]. split; [exact Ha|].
    split; [rewrite Ht; reflexivity|]. split; [exact Hc|].
    split; [rewrite Hv; reflexivity|].
    split; [exact Hs|]. exact Hp.
Defined.

(** ** End of stream *)

(** C3.  When [ended] is dispatched on a source carrying the handler of a
    session with buffer [buf], the handler recomputes the elapsed time as the
    clock minus [startTimeRef]: if it has reached the duration, [isPlaying]
    becomes false and [pausedTimeRef] becomes 0 (so that the next Play starts
    at offset 0) and nothing else changes; otherwise the world is left as it
    is. *)
Theorem onended_detects_natural_end (w : World) (n : nat)
  (src : AudioBufferSourceNode) (buf : AudioBuffer) :
  source_at w n = Some src -> onended src = Some buf ->
  let elapsed := currentTime (audio w) - startTimeRef (refs w) in
  (duration buf <= elapsed ->
     step (Ended n) w =
       Ok tt (with_refs (set_pausedTimeRef 0)
                (with_scope (set_isPlaying false) w)) /\
     forall b h, audioBuffer (scope w) = Some b ->
       audioContext (scope w) = Some h -> 0 < duration b ->
       exists w1 w2 m s off,
         step (Ended n) w = Ok tt w1 /\
         isPlaying (scope w1) = false /\ pausedTimeRef (refs w1) = 0 /\
         step Click w1 = Ok tt w2 /\
         sourceRef (refs w2) = Some m /\ source_at w2 m = Some s /\
         started s = Some off /\ off == 0) /\
  (elapsed < duration buf -> step (Ended n) w = Ok tt w).
Proof.
  intros Hs Hh elapsed.
  assert (E : step (Ended n) w = onended_handler buf w).
  { unfold step. unfold_m. cbn. unfold source_at in Hs. now rewrite Hs, Hh. }
  rewrite E, onended_handler_runs. fold elapsed. split.
  - intros Hle. apply Qle_bool_iff in Hle. rewrite Hle.
    split; [reflexivity|].
    intros b h Hb Hc Hd.
    set (w1 := with_refs (set_pausedTimeRef 0)
                 (with_scope (set_isPlaying false) w)).
    destruct (click_play w1 b h Hb Hc eq_refl Hd (Qle_refl 0))
      as (w2 & E2 & Hsc & Hrf & Hau & Hpg).
    exists w1, w2. eexists. eexists. eexists.
    split; [reflexivity|]. split; [reflexivity|]. split; [reflexivity|].
    split; [exact E2|].
    split; [rewrite Hrf; reflexivity|].
    split; [unfold source_at; rewrite Hau; cbn [sources];
            apply nth_error_snoc|].
    split; [reflexivity|].
    apply js_rem_zero. exact Hd.
  - intros Hlt. destruct (Qle_bool (duration buf) elapsed) eqn:Hle;
      [|reflexivity].
    apply Qle_bool_iff in Hle. lra.
Qed.

Lemma onended_detects_natural_end_witness :
  (let w := world_of (run [Click; Advance 5] w5) in
   step (Ended 0) w =
     Ok tt (with_refs (set_pausedTimeRef 0)
              (with_scope (set_isPlaying false) w))) /\
  (step (Ended 0) w5_paused = Ok tt w5_paused).
Proof.
  split.
  - cbv zeta.
    destruct (onended_detects_natural_end
                (world_of (run [Click; Advance 5] w5)) 0%nat
                (session_source buf5 0 (js_rem 0 5)) buf5 eq_refl eq_refl)
      as [Natural _].
    apply Natural. qcompute.
  - destruct (onended_detects_natural_end w5_paused 0%nat
                (disconnected (halted (session_source buf5 0 (js_rem 0 5))))
                buf5 eq_refl eq_refl) as [_ Explicit].
    apply Explicit. qcompute.
Defined.

(** ** Teardown *)

Lemma torn_down_after (w : World) (n : nat) (s : AudioBufferSourceNode)
  (f : AudioBufferSourceNode -> AudioBufferSourceNode) (w' : World) :
  source_at w n = Some s ->
  src_outputs (f s) = [] -> stopped (f s) = true ->
  audio w' = set_sources (update n f (sources (audio w))) (audio w) ->
  source_torn_down w w' n.
Proof.
  intros Hs Ho Hst Hau. unfold source_torn_down, source_at in *.
  rewrite Hau. cbn. rewrite nth_error_update_same, Hs. cbn.
  repeat split. exists (f s). auto.
Qed.

(** C4, as the code has it.  Pause, stop and the arrival of a buffer halt the
    source the refs point to and remove its outgoing connection; the filters
    and analysers, and with them the connections filter -> analyser and
    analyser -> output, are left as they were. *)
Theorem teardown_disconnects_source (w : World) (n : nat)
  (s : AudioBufferSourceNode) :
  sourceRef (refs w) = Some n -> source_at w n = Some s ->
  started s <> None ->
  (forall sc h, isPlaying sc = true -> audioContext sc = Some h ->
     exists w', pauseAudio sc w = Ok tt w' /\ source_torn_down w w' n) /\
  (exists w', stopAudio w = Ok tt w' /\ source_torn_down w w' n) /\
  (forall b, is_some (audioBuffer (scope w)) || is_some b = true ->
     exists w', step (NewAudioBuffer b) w = Ok tt w' /\
                source_torn_down w w' n).
Proof.
  intros Hr Hs Hst.
  assert (Hq : halted_quietly s = halted s).
  { unfold halted_quietly. destruct (started s); [reflexivity|congruence]. }
  split; [|split].
  - intros sc h Hp Hc.
    rewrite (pauseAudio_playing sc w n s h Hp Hc Hr Hs Hst).
    eexists; split; [reflexivity|].
    eapply torn_down_after with (f := fun s => disconnected (halted s));
      eauto.
  - rewrite stopAudio_runs, Hr.
    eexists; split; [reflexivity|].
    eapply torn_down_after
      with (f := fun s => disconnected (halted_quietly s)); eauto.
    cbn. rewrite Hq. reflexivity.
  - intros b Hb. unfold step. unfold commit. unfold_m. cbn. rewrite Hb.
    rewrite audioBuffer_effect_runs. cbn. rewrite Hr.
    eexists; split; [reflexivity|].
    eapply torn_down_after
      with (f := fun s => disconnected (halted_quietly s)); eauto.
    cbn. rewrite Hq. reflexivity.
Qed.

Lemma teardown_disconnects_source_witness :
  (exists w', pauseAudio (scope w5_playing) w5_playing = Ok tt w' /\
              source_torn_down w5_playing w' 0) /\
  (exists w', stopAudio w5_playing = Ok tt w' /\
              source_torn_down w5_playing w' 0) /\
  (exists w', step (NewAudioBuffer None) w5_playing = Ok tt w' /\
              source_torn_down w5_playing w' 0).
Proof.
  destruct (teardown_disconnects_source w5_playing 0%nat
              (session_source buf5 0 (js_rem 0 5)) eq_refl eq_refl
              ltac:(discriminate)) as (P & S & B).
  split; [|split].
  - exact (P (scope w5_playing) TheContext eq_refl eq_refl).
  - exact S.
  - exact (B None eq_refl).
Defined.

(** C4 as stated fails: after Play and Pause the filter of the session is
    still connected to the analyser and the analyser to the output, and the
    next Play builds a second graph beside them. *)
Lemma teardown_leaves_filter_and_analyser_connected :
  let w' := world_of (step Click w5_paused) in
  succeeds (run [Click; Advance 2; Click] w5) = true /\
  isPlaying (scope w5_paused) = false /\
  session_graph_disconnected w5_paused = false /\
  option_map flt_outputs (filter_at w5_paused 0) = Some [ToAnalyser 0%nat] /\
  option_map an_outputs (analyser_at w5_paused 0) = Some [ToDestination] /\
  succeeds (step Click w5_paused) = true /\
  option_map an_outputs (analyser_at w' 0) = Some [ToDestination] /\
  option_map an_outputs (analyser_at w' 1) = Some [ToDestination].
Proof. cbv zeta. repeat split; vm_compute; reflexivity. Qed.

(** ** Visualisation loop *)

Lemma find_cancelled (h : Z) (l : list (Z * DrawClosure)) :
  find (fun e => Z.eqb (fst e) h)
       (filter (fun e => negb (Z.eqb (fst e) h)) l) = None.
Proof.
  induction l as [|e l IH]; cbn; [reflexivity|].
  destruct (Z.eqb (fst e) h) eqn:E; cbn; [exact IH|].
  rewrite E. exact IH.
Qed.

(** C5.  [draw] does nothing when the [isPlaying] it sees is false, and an
    effective [pauseAudio] cancels the callback whose handle is in
    [animationFrameRef].  Whatever happens to a mounted player (clicks, new
    buffers, level changes, [ended] events, frame callbacks, clock ticks), no
    frame callback is pending and no frame has been painted, and a frame
    event does nothing: the guard of [draw] reads the [isPlaying] of the
    render whose Play button was clicked, which is false.  In particular no
    render tick runs while [isPlaying] is false, and none is scheduled or run
    after a pause or a natural end. *)
Theorem visualization_never_runs_when_not_playing :
  (forall c w, seen_isPlaying c = false -> draw c w = Ok tt w) /\
  (forall sc w n s h,
     isPlaying sc = true -> audioContext sc = Some h ->
     sourceRef (refs w) = Some n -> source_at w n = Some s ->
     started s <> None -> truthy (animationFrameRef (refs w)) = true ->
     exists w', pauseAudio sc w = Ok tt w' /\
       find (fun e => Z.eqb (fst e) (animationFrameRef (refs w)))
            (frames (page w')) = None) /\
  (forall buf ctx bass now st has2d tr,
     0 <= now -> positive_duration buf = true -> forallb legal tr = true ->
     exists w,
       session tr (initial buf ctx bass now st has2d) = Ok tt w /\
       frames (page w) = [] /\
       painted (page w) = 0%nat /\
       (forall h, isPlaying (scope w) = false ->
          step (AnimationFrame h) w = Ok tt w)).
Proof.
  split; [|split].
  - intros c w Hc. unfold draw. rewrite Hc. reflexivity.
  - intros sc w n s h Hp Hc Hr Hs Hst Hh.
    rewrite (pauseAudio_playing sc w n s h Hp Hc Hr Hs Hst).
    eexists; split; [reflexivity|].
    cbn. unfold frame_cancelled. rewrite Hh. cbn. apply find_cancelled.
  - intros buf ctx bass now st has2d tr Hnow Hbuf L.
    destruct (session_Inv buf ctx bass now st has2d tr Hnow Hbuf L)
      as (w & E & I).
    exists w. split; [exact E|].
    split; [exact (inv_frames w I)|].
    split; [exact (inv_painted w I)|].
    intros h _. unfold step. unfold_m. cbn. rewrite (inv_frames w I).
    reflexivity.
Qed.

(** A world in which a frame callback is pending (as if [draw] had seen
    [isPlaying] true). *)
Lemma visualization_never_runs_when_not_playing_witness :
  (draw {| seen_isPlaying := false |} w5 = Ok tt w5) /\
  (let w := world_of (draw {| seen_isPlaying := true |} w5_playing) in
   frames (page w) = [(1%Z, {| seen_isPlaying := true |})] /\
   exists w', pauseAudio (scope w) w = Ok tt w' /\
     find (fun e => Z.eqb (fst e) (animationFrameRef (refs w)))
          (frames (page w')) = None) /\
  (exists w,
     session [Click; Advance 2; AnimationFrame 1; Click; AnimationFrame 1;
              Click; Advance 5; Ended 1; AnimationFrame 1]
       (initial (Some buf5) (Some TheContext) 0 0 suspended true) = Ok tt w /\
     frames (page w) = [] /\
     painted (page w) = 0%nat /\
     (forall h, isPlaying (scope w) = false ->
        step (AnimationFrame h) w = Ok tt w)).
Proof.
  destruct visualization_never_runs_when_not_playing as (D & P & R).
  split; [|split].
  - apply D. reflexivity.
  - cbv zeta. split; [reflexivity|].
    apply (P _ _ 0%nat (session_source buf5 0 (js_rem 0 5)) TheContext);
      try reflexivity.
    discriminate.
  - apply R; [qcompute | reflexivity | reflexivity].
Defined.

(** ** Range of the paused offset *)

(** C6, as the code has it.  In every world a mounted player reaches,
    [pausedTimeRef] is not negative, and a click on Play starts the new source
    at [pausedTimeRef % duration], which lies in [0, duration). *)
Theorem paused_offset_nonnegative_and_start_offset_in_range
  (buf : option AudioBuffer) (ctx : option ContextHandle) (bass now : Q)
  (st : AudioContextState) (has2d : bool) (tr : list Event) :
  0 <= now -> positive_duration buf = true -> forallb legal tr = true ->
  exists w,
    session tr (initial buf ctx bass now st has2d) = Ok tt w /\
    0 <= pausedTimeRef (refs w) /\
    (forall b h,
       audioBuffer (scope w) = Some b -> audioContext (scope w) = Some h ->
       isPlaying (scope w) = false ->
       exists w' n src off,
         step Click w = Ok tt w' /\
         sourceRef (refs w') = Some n /\ source_at w' n = Some src /\
         started src = Some off /\
         off = js_rem (pausedTimeRef (refs w)) (duration b) /\
         0 <= off /\ off < duration b).
Proof.
  intros Hnow Hbuf L.
  destruct (session_Inv buf ctx bass now st has2d tr Hnow Hbuf L)
    as (w & E & I).
  exists w. split; [exact E|]. split; [exact (inv_paused w I)|].
  intros b h Hb Hc Hp.
  pose proof (inv_buffer w I b Hb) as Hd.
  destruct (click_play w b h Hb Hc Hp Hd (inv_paused w I))
    as (w1 & E1 & Hsc & Hrf & Hau & Hpg).
  destruct (js_rem_bounds _ _ (inv_paused w I) Hd) as [Hlo Hhi].
  exists w1. eexists. eexists. eexists.
  split; [exact E1|].
  split; [rewrite Hrf; reflexivity|].
  split; [unfold source_at; rewrite Hau; cbn [sources]; apply nth_error_snoc|].
  split; [reflexivity|].
  split; [reflexivity|].
  split; assumption.
Qed.

Lemma paused_offset_nonnegative_and_start_offset_in_range_witness :
  exists w,
    session [Click; Advance 5; Click]
      (initial (Some buf5) (Some TheContext) 0 0 suspended true) = Ok tt w /\
    0 <= pausedTimeRef (refs w) /\
    (forall b h,
       audioBuffer (scope w) = Some b -> audioContext (scope w) = Some h ->
       isPlaying (scope w) = false ->
       exists w' n src off,
         step Click w = Ok tt w' /\
         sourceRef (refs w') = Some n /\ source_at w' n = Some src /\
         started src = Some off /\
         off = js_rem (pausedTimeRef (refs w)) (duration b) /\
         0 <= off /\ off < duration b).
Proof.
  apply paused_offset_nonnegative_and_start_offset_in_range;
    [qcompute | reflexivity | reflexivity].
Defined.

(** C6 as stated fails: with a five-second buffer, Play at 0 and a Pause
    handled at 5, before [ended] has been dispatched, store 5 in
    [pausedTimeRef], which is not below the duration. *)
Lemma paused_offset_reaches_duration :
  let o := session [Click; Advance 5; Click]
             (initial (Some buf5) (Some TheContext) 0 0 suspended true) in
  forallb legal [Click; Advance 5; Click] = true /\
  succeeds o = true /\
  audioBuffer (scope (world_of o)) = Some buf5 /\
  pausedTimeRef (refs (world_of o)) == 5 /\
  ~ pausedTimeRef (refs (world_of o)) < duration buf5.
Proof.
  cbv zeta. split; [reflexivity|]. split; [reflexivity|].
  split; [reflexivity|]. split; qcompute.
Qed.

(** ** New buffer *)

(** After a stop, an [ended] event finds nothing left to reset. *)
Lemma ended_after_stop (w : World) (n : nat) :
  isPlaying (scope w) = false -> pausedTimeRef (refs w) = 0 ->
  step (Ended n) w = Ok tt w.
Proof.
  intros Hp Hz. unfold step. unfold_m. cbn.
  destruct (nth_error (sources (audio w)) n) as [s|]; [|reflexivity].
  destruct (onended s) as [buf|]; [|reflexivity].
  rewrite onended_handler_runs.
  destruct (Qle_bool _ _); [|reflexivity].
  f_equal. apply World_ext; cbn; try reflexivity.
  - destruct (scope w); cbn in *. subst. reflexivity.
  - destruct (refs w); cbn in *. subst. reflexivity.
Qed.

(** C7, as the code has it.  When the [audioBuffer] prop changes to a new
    buffer, the effect runs [stopAudio]: the source the refs point to is
    halted (if it was ever started) and disconnected, while the filters and
    analysers are left as they were; no exception escapes, [isPlaying] is
    false and [pausedTimeRef] is 0 afterwards, and the next click on Play,
    also when the [ended] event of the stopped source is handled first,
    starts a source on the new buffer at offset 0. *)
Theorem new_buffer_forces_stop (w : World) (b : AudioBuffer)
  (h : ContextHandle) :
  0 < duration b -> audioContext (scope w) = Some h ->
  exists w1 w2 m s off,
    step (NewAudioBuffer (Some b)) w = Ok tt w1 /\
    audioBuffer (scope w1) = Some b /\
    isPlaying (scope w1) = false /\ pausedTimeRef (refs w1) = 0 /\
    (forall n src, sourceRef (refs w) = Some n -> source_at w n = Some src ->
       exists src', source_at w1 n = Some src' /\ src_outputs src' = [] /\
                    (started src <> None -> stopped src' = true)) /\
    filters (audio w1) = filters (audio w) /\
    analysers (audio w1) = analysers (audio w) /\
    (forall n, step (Ended n) w1 = Ok tt w1) /\
    step Click w1 = Ok tt w2 /\
    isPlaying (scope w2) = true /\
    sourceRef (refs w2) = Some m /\ source_at w2 m = Some s /\
    buffer s = Some b /\ started s = Some off /\ off == 0.
Proof.
  intros Hd Hc.
  assert (E : exists w1, step (NewAudioBuffer (Some b)) w = Ok tt w1 /\
     scope w1 = set_isPlaying false (set_audioBuffer (Some b) (scope w)) /\
     pausedTimeRef (refs w1) = 0 /\
     audio w1 = match sourceRef (refs w) with
                | Some n => set_sources
                      (update n (fun s => disconnected (halted_quietly s))
                         (sources (audio w))) (audio w)
                | None => audio w
                end).
  { unfold step. unfold commit. unfold_m. cbn.
    rewrite orb_true_r, audioBuffer_effect_runs. cbn.
    eexists; split; [reflexivity|]. cbn. auto. }
  destruct E as (w1 & E1 & Hsc1 & Hp1 & Hau1).
  destruct (click_play w1 b h) as (w2 & E2 & Hsc2 & Hrf2 & Hau2 & Hpg2).
  { rewrite Hsc1. reflexivity. }
  { rewrite Hsc1. exact Hc. }
  { rewrite Hsc1. reflexivity. }
  { exact Hd. }
  { rewrite Hp1. lra. }
  exists w1, w2. eexists. eexists. eexists.
  split; [exact E1|].
  split; [rewrite Hsc1; reflexivity|].
  split; [rewrite Hsc1; reflexivity|].
  split; [exact Hp1|].
  split.
  { intros n src Hr Hs. unfold source_at in *. rewrite Hau1, Hr. cbn.
    rewrite nth_error_update_same, Hs. cbn.
    eexists; split; [reflexivity|]. split; [reflexivity|].
    intros Hst. unfold halted_quietly.
    destruct (started src); [reflexivity|congruence]. }
  split; [rewrite Hau1; destruct (sourceRef (refs w)); reflexivity|].
  split; [rewrite Hau1; destruct (sourceRef (refs w)); reflexivity|].
  split.
  { intros n. apply ended_after_stop; [rewrite Hsc1; reflexivity | exact Hp1]. }
  split; [exact E2|].
  split; [rewrite Hsc2; reflexivity|].
  split; [rewrite Hrf2; reflexivity|].
  split; [unfold source_at; rewrite Hau2; cbn [sources]; apply nth_error_snoc|].
  split; [reflexivity|]. split; [reflexivity|].
  rewrite Hp1. apply js_rem_zero. exact Hd.
Qed.

Lemma new_buffer_forces_stop_witness :
  let b := {| duration := 3 |} in
  exists w1 w2 m s off,
    step (NewAudioBuffer (Some b)) w5_playing = Ok tt w1 /\
    audioBuffer (scope w1) = Some b /\
    isPlaying (scope w1) = false /\ pausedTimeRef (refs w1) = 0 /\
    (forall n src, sourceRef (refs w5_playing) = Some n ->
       source_at w5_playing n = Some src ->
       exists src', source_at w1 n = Some src' /\ src_outputs src' = [] /\
                    (started src <> None -> stopped src' = true)) /\
    filters (audio w1) = filters (audio w5_playing) /\
    analysers (audio w1) = analysers (audio w5_playing) /\
    (forall n, step (Ended n) w1 = Ok tt w1) /\
    step Click w1 = Ok tt w2 /\
    isPlaying (scope w2) = true /\
    sourceRef (refs w2) = Some m /\ source_at w2 m = Some s /\
    buffer s = Some b /\ started s = Some off /\ off == 0.
Proof.
  apply (new_buffer_forces_stop w5_playing {| duration := 3 |} TheContext);
    [qcompute | reflexivity].
Defined.

(** C7 as stated fails: when a new buffer arrives during playback, the
    source of the old session is halted and disconnected, but its filter
    still feeds its analyser and the analyser the destination, so the graph
    is not torn down. *)
Lemma new_buffer_leaves_filter_and_analyser_connected :
  let o := step (NewAudioBuffer (Some {| duration := 3 |})) w5_playing in
  succeeds o = true /\
  isPlaying (scope w5_playing) = true /\
  isPlaying (scope (world_of o)) = false /\
  option_map src_outputs (source_at (world_of o) 0) = Some [] /\
  session_graph_disconnected (world_of o) = false /\
  option_map flt_outputs (filter_at (world_of o) 0) = Some [ToAnalyser 0%nat] /\
  option_map an_outputs (analyser_at (world_of o) 0) = Some [ToDestination].
Proof. cbv zeta. repeat split; vm_compute; reflexivity. Qed.

(** ** Calls that must do nothing *)

(** C8.  [playAudio] without a buffer or without an audio context returns
    normally and leaves the whole world as it was: no node is created,
    nothing is started, no state or ref is written. *)
Theorem playAudio_not_ready_is_noop (s : Scope) (w : World) :
  audioBuffer s = None \/ audioContext s = None -> playAudio s w = Ok tt w.
Proof. apply playAudio_noop. Qed.

Lemma playAudio_not_ready_is_noop_witness :
  (let s := {| audioBuffer := None; audioContext := Some TheContext;
               bassBoost := 3; isPlaying := false |} in
   playAudio s w5 = Ok tt w5) /\
  (let s := {| audioBuffer := Some buf5; audioContext := None;
               bassBoost := 3; isPlaying := false |} in
   playAudio s w5 = Ok tt w5).
Proof.
  split; cbv zeta; apply playAudio_not_ready_is_noop;
    [left | right]; reflexivity.
Defined.

(** C9.  [stopAudio] never throws, whatever the world (a [stop()] on a
    source that was never started raises inside the [try] and is dropped);
    afterwards [isPlaying] is false and [pausedTimeRef] is 0, and a second
    [stopAudio] returns normally and changes nothing at all. *)
Theorem stopAudio_twice (w : World) :
  exists w1,
    stopAudio w = Ok tt w1 /\
    isPlaying (scope w1) = false /\ pausedTimeRef (refs w1) = 0 /\
    stopAudio w1 = Ok tt w1.
Proof.
  rewrite stopAudio_runs. eexists; split; [reflexivity|].
  split; [reflexivity|]. split; [reflexivity|].
  rewrite stopAudio_runs. f_equal. cbn. f_equal.
  - destruct (sourceRef (refs w)) as [n|]; [|reflexivity].
    cbn. unfold set_sources. cbn. f_equal.
    rewrite update_update. apply update_ext_at. intros x _.
    destruct x as [b o [q|] st oe]; reflexivity.
  - unfold frame_cancelled. cbn.
    destruct (truthy (animationFrameRef (refs w))); [|reflexivity].
    unfold without_frame, set_frames. cbn. f_equal. apply filter_filter.
Qed.

(** C10.  [pauseAudio] while not playing, or without a source, returns
    normally and leaves the whole world as it was. *)
Theorem pauseAudio_not_playing_is_noop (s : Scope) (w : World) :
  isPlaying s = false \/ sourceRef (refs w) = None -> pauseAudio s w = Ok tt w.
Proof. intros H. apply pauseAudio_noop. tauto. Qed.

Lemma pauseAudio_not_playing_is_noop_witness :
  (pauseAudio (scope w5_paused) w5_paused = Ok tt w5_paused) /\
  (let s := {| audioBuffer := Some buf5; audioContext := Some TheContext;
               bassBoost := 0; isPlaying := true |} in
   pauseAudio s w5 = Ok tt w5).
Proof.
  split; cbv zeta; apply pauseAudio_not_playing_is_noop;
    [left | right]; reflexivity.
Defined.

(** * Further properties *)

(** ** The node tables *)

Lemma nth_error_snoc_inv {A} (l : list A) (x y : A) (i : nat) :
  nth_error (l ++ [x]) i = Some y ->
  nth_error l i = Some y \/ (i = length l /\ y = x).
Proof.
  revert i; induction l as [|z l IH]; intros [|i] H; cbn in *.
  - right. split; congruence.
  - destruct i; discriminate.
  - left. exact H.
  - destruct (IH i H) as [H'|[-> ->]]; [left | right]; auto.
Qed.

Lemma nth_error_update_inv {A} (f : A -> A) (l : list A) (n i : nat) (y : A) :
  nth_error (update n f l) i = Some y ->
  (i = n /\ exists x, nth_error l n = Some x /\ y = f x) \/
  (i <> n /\ nth_error l i = Some y).
Proof.
  revert n i; induction l as [|z l IH]; intros [|n] [|i] H; cbn in *;
    try discriminate.
  - left. split; [reflexivity|]. exists z. split; congruence.
  - right. split; [discriminate | exact H].
  - right. split; [discriminate | exact H].
  - destruct (IH n i H) as [[-> (x & Hx & ->)]|[Hne Hi]].
    + left. split; [reflexivity|]. exists x. auto.
    + right. split; [congruence | exact Hi].
Qed.

Lemma Graph_initial (buf : option AudioBuffer) (ctx : option ContextHandle)
  (bass now : Q) (st : AudioContextState) (has2d : bool) (w : World) :
  mount (initial buf ctx bass now st has2d) = Ok tt w -> 0 <= now ->
  Graph_ok w.
Proof.
  intros E Hnow. unfold mount in E. unfold bind at 1 in E.
  unfold commit in E. unfold_m. cbn in E.
  unfold bind in E. rewrite audioBuffer_effect_runs in E. cbn in E.
  rewrite bassBoost_effect_runs in E by (cbn; exact Hnow). cbn in E.
  injection E as <-.
  constructor; cbn; auto.
  - intros [|i] s H; discriminate.
  - intros [|i] s H; discriminate.
  - intros [|i] s H; discriminate.
  - discriminate.
Qed.

(** A teardown function applied to the source the refs point to keeps the
    shape of the tables. *)
Lemma Graph_teardown (w w' : World) (n : nat)
  (f : AudioBufferSourceNode -> AudioBufferSourceNode) :
  Graph_ok w -> sourceRef (refs w) = Some n ->
  (forall s, started s <> None ->
     started (f s) = started s /\ stopped (f s) = true /\
     src_outputs (f s) = []) ->
  isPlaying (scope w') = false ->
  sourceRef (refs w') = sourceRef (refs w) ->
  bassFilterRef (refs w') = bassFilterRef (refs w) ->
  analyserRef (refs w') = analyserRef (refs w) ->
  audio w' = set_sources (update n f (sources (audio w))) (audio w) ->
  Graph_ok w'.
Proof.
  intros G Hr Hf Hp Hr1 Hr2 Hr3 Hau.
  destruct G as [G1 G2 G3 G4 G5 G6 G7].
  constructor; unfold source_at, filter_at, analyser_at in *;
    rewrite ?Hau, ?Hr1, ?Hr2, ?Hr3; cbn; rewrite ?update_length; auto.
  - intros i s H. apply nth_error_update_inv in H.
    destruct H as [[-> (x & Hx & ->)]|[Hne Hi]]; [|exact (G3 i s Hi)].
    destruct (G3 n x Hx) as [Hst _].
    destruct (Hf x Hst) as (E1 & E2 & E3).
    split; [congruence|]. right. auto.
  - rewrite Hr in *. exact G6.
  - intros H. rewrite Hp in H. discriminate.
Qed.

Lemma halted_quietly_started (s : AudioBufferSourceNode) :
  started s <> None -> halted_quietly s = halted s.
Proof.
  intros H. unfold halted_quietly. destruct (started s); [reflexivity|].
  congruence.
Qed.

Lemma step_Graph (e : Event) (w : World) :
  Inv w -> Graph_ok w -> legal e = true ->
  exists w', step e w = Ok tt w' /\ Inv w' /\ Graph_ok w'.
Proof.
  intros I G L. destruct (step_Inv e w I L) as (w' & E & I').
  exists w'. split; [exact E|]. split; [exact I'|].
  destruct e as [|b|l|c|n|h|dt].
  - (* Click *)
    destruct (audioBuffer (scope w)) as [buf|] eqn:Hb.
    2:{ assert (E' : step Click w = Ok tt w).
        { unfold step. unfold_m. cbn. now rewrite Hb. }
        rewrite E' in E. injection E as <-. exact G. }
    destruct (isPlaying (scope w)) eqn:Hp.
    + assert (E' : step Click w = pauseAudio (scope w) w).
      { unfold step. unfold_m. cbn. now rewrite Hb, Hp. }
      rewrite E' in E. clear E'.
      destruct (sourceRef (refs w)) as [n|] eqn:Hr.
      2:{ rewrite pauseAudio_noop in E by auto. injection E as <-. exact G. }
      destruct (audioContext (scope w)) as [h|] eqn:Hc.
      2:{ rewrite pauseAudio_noop in E by auto. injection E as <-. exact G. }
      destruct (inv_source w I n Hr) as (s & Hs & Hst).
      rewrite (pauseAudio_playing (scope w) w n s h Hp Hc Hr Hs Hst) in E.
      injection E as <-.
      eapply Graph_teardown with (n := n)
        (f := fun s => disconnected (halted s)); eauto.
    + destruct (audioContext (scope w)) as [h|] eqn:Hc.
      2:{ assert (E' : step Click w = Ok tt w).
          { unfold step. unfold_m. cbn. rewrite Hb, Hp.
            apply playAudio_noop. auto. }
          rewrite E' in E. injection E as <-. exact G. }
      destruct (click_play w buf h Hb Hc Hp (inv_buffer w I buf Hb)
                  (inv_paused w I)) as (w1 & E1 & Hsc & Hrf & Hau & Hpg).
      rewrite E1 in E. injection E as <-.
      destruct G as [G1 G2 G3 G4 G5 G6 G7].
      constructor; unfold source_at, filter_at, analyser_at in *;
        rewrite ?Hsc, ?Hrf, ?Hau; cbn; rewrite ?length_app; cbn.
      * lia.
      * lia.
      * intros i s H. apply nth_error_snoc_inv in H.
        destruct H as [H|[-> ->]]; [exact (G3 i s H)|].
        cbn. split; [discriminate|]. left. rewrite G1. auto.
      * intros i f H. apply nth_error_snoc_inv in H.
        destruct H as [H|[-> ->]]; [exact (G4 i f H)|].
        cbn. rewrite G1, G2. auto.
      * intros i a H. apply nth_error_snoc_inv in H.
        destruct H as [H|[-> ->]]; [exact (G5 i a H)|].
        cbn. auto.
      * rewrite G1, G2. repeat split. lia.
      * intros _. eexists. eexists. split; [reflexivity|].
        split; [apply nth_error_snoc|]. reflexivity.
  - (* NewAudioBuffer *)
    unfold step, commit, bind, gets, modify, ret in E. cbn in E.
    destruct (is_some (audioBuffer (scope w)) || is_some b).
    + rewrite audioBuffer_effect_runs in E. cbn in E. injection E as <-.
      destruct (sourceRef (refs w)) as [n|] eqn:Hr.
      * apply Graph_teardown with (w := w) (n := n)
          (f := fun s => disconnected (halted_quietly s));
          try reflexivity; try assumption.
        intros s Hst. rewrite (halted_quietly_started s Hst). auto.
      * destruct G as [G1 G2 G3 G4 G5 G6 G7].
        constructor; unfold source_at, filter_at, analyser_at in *; cbn;
          rewrite ?Hr; auto.
        -- rewrite Hr in G6. exact G6.
        -- discriminate.
    + injection E as <-.
      destruct G as [G1 G2 G3 G4 G5 G6 G7]. constructor; cbn; auto.
  - (* SetBassBoost *)
    unfold step, bind, gets, modify, ret in E. cbn in E.
    assert (K : forall f, Graph_ok (with_audio (fun a => set_filters
         (update f (retargeted (l * 1.5) (currentTime (audio w)) 0.1)
            (filters a)) a) (with_scope (set_bassBoost l) w))).
    { intros f. destruct G as [G1 G2 G3 G4 G5 G6 G7].
      constructor; unfold source_at, filter_at, analyser_at in *; cbn;
        rewrite ?update_length; auto.
      intros i x H. apply nth_error_update_inv in H.
      destruct H as [[-> (y & Hy & ->)]|[Hne Hi]]; [|exact (G4 i x Hi)].
      exact (G4 f y Hy). }
    destruct (Qeq_bool (bassBoost (scope w)) l).
    + injection E as <-.
      destruct G as [G1 G2 G3 G4 G5 G6 G7]. constructor; cbn; auto.
    + rewrite bassBoost_effect_runs in E by exact (inv_now w I). cbn in E.
      destruct (bassFilterRef (refs w)) as [f|] eqn:Hf;
        [destruct (audioContext (scope w))|]; injection E as <-;
        try apply K;
        destruct G as [G1 G2 G3 G4 G5 G6 G7]; constructor; cbn; auto.
  - (* SetAudioContext *)
    unfold step, bind, gets, modify, ret in E. cbn in E.
    assert (K : forall f, Graph_ok (with_audio (fun a => set_filters
         (update f (retargeted (bassBoost (scope w) * 1.5)
                      (currentTime (audio w)) 0.1)
            (filters a)) a) (with_scope (set_audioContext c) w))).
    { intros f. destruct G as [G1 G2 G3 G4 G5 G6 G7].
      constructor; unfold source_at, filter_at, analyser_at in *; cbn;
        rewrite ?update_length; auto.
      intros i x H. apply nth_error_update_inv in H.
      destruct H as [[-> (y & Hy & ->)]|[Hne Hi]]; [|exact (G4 i x Hi)].
      exact (G4 f y Hy). }
    destruct (Bool.eqb (is_some (audioContext (scope w))) (is_some c)).
    + injection E as <-.
      destruct G as [G1 G2 G3 G4 G5 G6 G7]. constructor; cbn; auto.
    + rewrite bassBoost_effect_runs in E by exact (inv_now w I). cbn in E.
      destruct (bassFilterRef (refs w)) as [f|] eqn:Hf;
        [destruct c|]; injection E as <-;
        try apply K;
        destruct G as [G1 G2 G3 G4 G5 G6 G7]; constructor; cbn; auto.
  - (* Ended *)
    unfold step, bind, gets, modify, ret in E. cbn in E.
    destruct (nth_error (sources (audio w)) n) as [s|];
      [|injection E as <-; exact G].
    destruct (onended s) as [buf|]; [|injection E as <-; exact G].
    rewrite onended_handler_runs in E.
    destruct (Qle_bool _ _); injection E as <-; [|exact G].
    destruct G as [G1 G2 G3 G4 G5 G6 G7]. constructor; cbn; auto.
    discriminate.
  - (* AnimationFrame *)
    unfold step, bind, gets, modify, ret in E. cbn in E. rewrite (inv_frames w I) in E.
    cbn in E. injection E as <-. exact G.
  - (* Advance *)
    injection E as <-.
    destruct G as [G1 G2 G3 G4 G5 G6 G7]. constructor; cbn; auto.
Qed.

Lemma run_Graph (tr : list Event) (w : World) :
  Inv w -> Graph_ok w -> forallb legal tr = true ->
  exists w', run tr w = Ok tt w' /\ Inv w' /\ Graph_ok w'.
Proof.
  revert w. induction tr as [|e tr IH]; intros w I G L.
  - exists w. split; [reflexivity | auto].
  - cbn in L. apply andb_true_iff in L. destruct L as [Le Ltr].
    destruct (step_Graph e w I G Le) as (w1 & E1 & I1 & G1).
    destruct (IH w1 I1 G1 Ltr) as (w2 & E2 & I2 & G2).
    exists w2. split; [|auto].
    cbn [run]. unfold bind. rewrite E1. exact E2.
Qed.

Lemma session_Graph (buf : option AudioBuffer) (ctx : option ContextHandle)
  (bass now : Q) (st : AudioContextState) (has2d : bool) (tr : list Event) :
  0 <= now -> positive_duration buf = true -> forallb legal tr = true ->
  exists w, session tr (initial buf ctx bass now st has2d) = Ok tt w /\
            Inv w /\ Graph_ok w.
Proof.
  intros Hnow Hbuf L.
  destruct (Inv_initial buf ctx bass now st has2d Hnow Hbuf) as (w0 & E0 & I0).
  pose proof (Graph_initial buf ctx bass now st has2d w0 E0 Hnow) as G0.
  destruct (run_Graph tr w0 I0 G0 L) as (w & E & I & G).
  exists w. split; [|auto].
  unfold session, bind. rewrite E0. exact E.
Qed.

(** X1.  A mounted player never throws: whatever legal events arrive, every
    handler and effect returns normally.  In particular the unguarded
    [stop()] of [pauseAudio] is only ever called on a started source, and
    [start] never sees a negative offset. *)
Theorem session_never_throws
  (buf : option AudioBuffer) (ctx : option ContextHandle) (bass now : Q)
  (st : AudioContextState) (has2d : bool) (tr : list Event) :
  0 <= now -> positive_duration buf = true -> forallb legal tr = true ->
  succeeds (session tr (initial buf ctx bass now st has2d)) = true.
Proof.
  intros Hnow Hbuf L.
  destruct (session_Inv buf ctx bass now st has2d tr Hnow Hbuf L)
    as (w & E & _).
  rewrite E. reflexivity.
Qed.

Lemma session_never_throws_witness :
  succeeds (session [Click; Advance 5; Click; Ended 0; Click;
                     NewAudioBuffer None; Click; SetBassBoost 4]
              (initial (Some buf5) (Some TheContext) 0 0 suspended true))
  = true.
Proof.
  apply session_never_throws; [qcompute | reflexivity | reflexivity].
Defined.

Lemma nth_error_in_range {A} (l : list A) (n : nat) :
  (n < length l)%nat -> exists x, nth_error l n = Some x.
Proof.
  intros H. destruct (nth_error l n) as [x|] eqn:E; [eauto|].
  apply nth_error_None in E. lia.
Qed.

(** X2.  While [isPlaying] is true the three refs point to the nodes of one
    session, whose source has been started, has not been halted, and
    reaches the output: source -> low-shelf filter -> analyser ->
    destination. *)
Theorem playing_graph_is_live
  (buf : option AudioBuffer) (ctx : option ContextHandle) (bass now : Q)
  (st : AudioContextState) (has2d : bool) (tr : list Event) :
  0 <= now -> positive_duration buf = true -> forallb legal tr = true ->
  exists w,
    session tr (initial buf ctx bass now st has2d) = Ok tt w /\
    (isPlaying (scope w) = true ->
     exists n s f a,
       sourceRef (refs w) = Some n /\ bassFilterRef (refs w) = Some n /\
       analyserRef (refs w) = Some n /\
       source_at w n = Some s /\ filter_at w n = Some f /\
       analyser_at w n = Some a /\
       started s <> None /\ stopped s = false /\
       src_outputs s = [ToFilter n] /\
       ftype f = lowshelf /\ flt_outputs f = [ToAnalyser n] /\
       an_outputs a = [ToDestination]).
Proof.
  intros Hnow Hbuf L.
  destruct (session_Graph buf ctx bass now st has2d tr Hnow Hbuf L)
    as (w & E & I & G).
  exists w. split; [exact E|]. intros Hp.
  destruct (graph_playing w G Hp) as (n & s & Hr & Hs & Hst).
  pose proof (graph_refs w G) as R. rewrite Hr in R.
  destruct R as (Rf & Ra & Rn).
  destruct (nth_error_in_range (filters (audio w)) n) as (f & Hf).
  { rewrite (graph_filters w G). lia. }
  destruct (nth_error_in_range (analysers (audio w)) n) as (a & Ha).
  { rewrite (graph_analysers w G). lia. }
  destruct (graph_source w G n s Hs) as (S1 & [[_ S2]|[S2 _]]);
    [|congruence].
  destruct (graph_filter w G n f Hf) as (F1 & _ & F2).
  destruct (graph_analyser w G n a Ha) as (_ & A1).
  exists n, s, f, a. repeat split; assumption.
Qed.

Lemma playing_graph_is_live_witness :
  exists w,
    session [Click; Advance 2; Click; Advance 1; Click; SetBassBoost 7]
      (initial (Some buf5) (Some TheContext) 0 0 suspended true) = Ok tt w /\
    isPlaying (scope w) = true /\
    exists n s f a,
      sourceRef (refs w) = Some n /\ bassFilterRef (refs w) = Some n /\
      analyserRef (refs w) = Some n /\
      source_at w n = Some s /\ filter_at w n = Some f /\
      analyser_at w n = Some a /\
      started s <> None /\ stopped s = false /\
      src_outputs s = [ToFilter n] /\
      ftype f = lowshelf /\ flt_outputs f = [ToAnalyser n] /\
      an_outputs a = [ToDestination].
Proof.
  destruct (playing_graph_is_live (Some buf5) (Some TheContext) 0 0
              suspended true
              [Click; Advance 2; Click; Advance 1; Click; SetBassBoost 7])
    as (w & E & H); [qcompute | reflexivity | reflexivity |].
  assert (Hp : isPlaying (scope w) = true).
  { change w with (world_of (Ok tt w)). rewrite <- E. reflexivity. }
  exists w. split; [exact E|]. split; [exact Hp|]. exact (H Hp).
Defined.

(** X3.  Nothing a player has built is ever taken apart beyond its source:
    in every world it reaches there are as many filters and analysers as
    sources, every filter is a 200 Hz low-shelf still feeding the analyser
    of its session, every analyser still feeds the destination, and a
    source is either running into its filter or halted with no connection
    left. *)
Theorem graphs_accumulate
  (buf : option AudioBuffer) (ctx : option ContextHandle) (bass now : Q)
  (st : AudioContextState) (has2d : bool) (tr : list Event) :
  0 <= now -> positive_duration buf = true -> forallb legal tr = true ->
  exists w,
    session tr (initial buf ctx bass now st has2d) = Ok tt w /\
    length (filters (audio w)) = length (sources (audio w)) /\
    length (analysers (audio w)) = length (sources (audio w)) /\
    (forall i f, filter_at w i = Some f ->
       ftype f = lowshelf /\ frequency f = 200 /\
       flt_outputs f = [ToAnalyser i]) /\
    (forall i a, analyser_at w i = Some a ->
       fftSize a = 256%Z /\ an_outputs a = [ToDestination]) /\
    (forall i s, source_at w i = Some s ->
       started s <> None /\
       ((stopped s = false /\ src_outputs s = [ToFilter i]) \/
        (stopped s = true /\ src_outputs s = []))).
Proof.
  intros Hnow Hbuf L.
  destruct (session_Graph buf ctx bass now st has2d tr Hnow Hbuf L)
    as (w & E & I & G).
  exists w. split; [exact E|].
  split; [exact (graph_filters w G)|].
  split; [exact (graph_analysers w G)|].
  split; [exact (graph_filter w G)|].
  split; [exact (graph_analyser w G)|].
  exact (graph_source w G).
Qed.

Lemma graphs_accumulate_witness :
  exists w,
    session [Click; Advance 2; Click; Advance 1; Click; NewAudioBuffer None]
      (initial (Some buf5) (Some TheContext) 0 0 suspended true) = Ok tt w /\
    length (filters (audio w)) = length (sources (audio w)) /\
    length (analysers (audio w)) = length (sources (audio w)) /\
    (forall i f, filter_at w i = Some f ->
       ftype f = lowshelf /\ frequency f = 200 /\
       flt_outputs f = [ToAnalyser i]) /\
    (forall i a, analyser_at w i = Some a ->
       fftSize a = 256%Z /\ an_outputs a = [ToDestination]) /\
    (forall i s, source_at w i = Some s ->
       started s <> None /\
       ((stopped s = false /\ src_outputs s = [ToFilter i]) \/
        (stopped s = true /\ src_outputs s = []))).
Proof.
  apply graphs_accumulate; [qcompute | reflexivity | reflexivity].
Defined.

(** X4.  With a buffer and an audio context, every click on the button
    flips [isPlaying]: Play always starts a session and Pause always ends
    it. *)
Theorem click_toggles_isPlaying
  (buf : option AudioBuffer) (ctx : option ContextHandle) (bass now : Q)
  (st : AudioContextState) (has2d : bool) (tr : list Event) :
  0 <= now -> positive_duration buf = true -> forallb legal tr = true ->
  exists w,
    session tr (initial buf ctx bass now st has2d) = Ok tt w /\
    (ready w = true ->
     exists w', step Click w = Ok tt w' /\
                isPlaying (scope w') = negb (isPlaying (scope w))).
Proof.
  intros Hnow Hbuf L.
  destruct (session_Graph buf ctx bass now st has2d tr Hnow Hbuf L)
    as (w & E & I & G).
  exists w. split; [exact E|]. unfold ready. intros R.
  apply andb_true_iff in R. destruct R as [Rb Rc].
  destruct (audioBuffer (scope w)) as [b|] eqn:Hb; [|discriminate].
  destruct (audioContext (scope w)) as [h|] eqn:Hc; [|discriminate].
  destruct (isPlaying (scope w)) eqn:Hp.
  - destruct (graph_playing w G Hp) as (n & s & Hr & Hs & _).
    destruct (graph_source w G n s Hs) as (Hst & _).
    rewrite (click_pause w b h n s Hb Hc Hp Hr Hs Hst).
    eexists; split; reflexivity.
  - destruct (click_play w b h Hb Hc Hp (inv_buffer w I b Hb)
                (inv_paused w I)) as (w1 & E1 & Hsc & _).
    exists w1. split; [exact E1|]. rewrite Hsc. reflexivity.
Qed.

Lemma click_toggles_isPlaying_witness :
  exists w,
    session [Click; Advance 5; Ended 0; Click; Advance 1]
      (initial (Some buf5) (Some TheContext) 0 0 suspended true) = Ok tt w /\
    ready w = true /\
    exists w', step Click w = Ok tt w' /\
               isPlaying (scope w') = negb (isPlaying (scope w)).
Proof.
  destruct (click_toggles_isPlaying (Some buf5) (Some TheContext) 0 0
              suspended true [Click; Advance 5; Ended 0; Click; Advance 1])
    as (w & E & H); [qcompute | reflexivity | reflexivity |].
  assert (Hr : ready w = true).
  { change w with (world_of (Ok tt w)). rewrite <- E. reflexivity. }
  exists w. split; [exact E|]. split; [exact Hr|]. exact (H Hr).
Defined.

Lemma step_node_count (e : Event) (w : World) :
  Inv w -> legal e = true ->
  exists w', step e w = Ok tt w' /\
    length (sources (audio w')) =
      (length (sources (audio w)) + if starts_session e w then 1 else 0)%nat.
Proof.
  intros I L. destruct e as [|b|l|c|n|h|dt]; cbn [starts_session].
  - unfold ready.
    destruct (audioBuffer (scope w)) as [buf|] eqn:Hb.
    2:{ exists w. split; [|cbn; lia]. unfold step. unfold_m. cbn.
        now rewrite Hb. }
    destruct (isPlaying (scope w)) eqn:Hp.
    + assert (E' : step Click w = pauseAudio (scope w) w).
      { unfold step. unfold_m. cbn. now rewrite Hb, Hp. }
      rewrite E'. rewrite andb_false_r.
      destruct (sourceRef (refs w)) as [n|] eqn:Hr.
      2:{ exists w. split; [apply pauseAudio_noop; auto | lia]. }
      destruct (audioContext (scope w)) as [h|] eqn:Hc.
      2:{ exists w. split; [apply pauseAudio_noop; auto | lia]. }
      destruct (inv_source w I n Hr) as (s & Hs & Hst).
      rewrite (pauseAudio_playing (scope w) w n s h Hp Hc Hr Hs Hst).
      eexists; split; [reflexivity|]. cbn. rewrite update_length. lia.
    + destruct (audioContext (scope w)) as [h|] eqn:Hc.
      2:{ exists w. split; [|cbn; lia]. unfold step. unfold_m. cbn.
          rewrite Hb, Hp. apply playAudio_noop. auto. }
      destruct (click_play w buf h Hb Hc Hp (inv_buffer w I buf Hb)
                  (inv_paused w I)) as (w1 & E1 & _ & _ & Hau & _).
      exists w1. split; [exact E1|]. rewrite Hau. cbn.
      rewrite length_app. reflexivity.
  - unfold step, commit. unfold_m. cbn.
    destruct (is_some (audioBuffer (scope w)) || is_some b).
    + rewrite audioBuffer_effect_runs.
      eexists; split; [reflexivity|]. cbn.
      destruct (sourceRef (refs w)); cbn; rewrite ?update_length; lia.
    + eexists; split; [reflexivity|]. cbn. lia.
  - unfold step. unfold_m. cbn.
    destruct (Qeq_bool (bassBoost (scope w)) l).
    + eexists; split; [reflexivity|]. cbn. lia.
    + rewrite bassBoost_effect_runs by exact (inv_now w I). cbn.
      eexists; split; [reflexivity|].
      destruct (bassFilterRef (refs w)), (audioContext (scope w)); cbn; lia.
  - unfold step. unfold_m. cbn.
    destruct (Bool.eqb (is_some (audioContext (scope w))) (is_some c)).
    + eexists; split; [reflexivity|]. cbn. lia.
    + rewrite bassBoost_effect_runs by exact (inv_now w I). cbn.
      eexists; split; [reflexivity|].
      destruct (bassFilterRef (refs w)), c; cbn; lia.
  - unfold step. unfold_m. cbn.
    destruct (nth_error (sources (audio w)) n) as [s|];
      [|exists w; split; [reflexivity | lia]].
    destruct (onended s) as [buf|];
      [|exists w; split; [reflexivity | lia]].
    rewrite onended_handler_runs.
    eexists; split; [reflexivity|].
    destruct (Qle_bool _ _); cbn; lia.
  - exists w. split; [|lia].
    unfold step. unfold_m. cbn. rewrite (inv_frames w I). reflexivity.
  - eexists; split; [reflexivity|]. cbn. lia.
Qed.

(** X5.  Only a click on Play that finds a buffer and an audio context
    creates nodes, and it creates exactly one source; no event removes a
    node.  (By X3 the filters and analysers are as many as the sources.) *)
Theorem only_play_creates_nodes
  (buf : option AudioBuffer) (ctx : option ContextHandle) (bass now : Q)
  (st : AudioContextState) (has2d : bool) (tr : list Event) (e : Event) :
  0 <= now -> positive_duration buf = true -> forallb legal tr = true ->
  legal e = true ->
  exists w w',
    session tr (initial buf ctx bass now st has2d) = Ok tt w /\
    step e w = Ok tt w' /\
    length (sources (audio w')) =
      (length (sources (audio w)) + if starts_session e w then 1 else 0)%nat.
Proof.
  intros Hnow Hbuf L Le.
  destruct (session_Inv buf ctx bass now st has2d tr Hnow Hbuf L)
    as (w & E & I).
  destruct (step_node_count e w I Le) as (w' & E' & H).
  exists w, w'. auto.
Qed.

Lemma only_play_creates_nodes_witness :
  (exists w w',
     session [Click; Advance 2; Click]
       (initial (Some buf5) (Some TheContext) 0 0 suspended true) = Ok tt w /\
     step Click w = Ok tt w' /\
     length (sources (audio w)) = 1%nat /\
     length (sources (audio w')) = 2%nat) /\
  (exists w w',
     session [Click; Advance 2]
       (initial (Some buf5) (Some TheContext) 0 0 suspended true) = Ok tt w /\
     step (NewAudioBuffer None) w = Ok tt w' /\
     length (sources (audio w')) = length (sources (audio w))).
Proof.
  split.
  - destruct (only_play_creates_nodes (Some buf5) (Some TheContext) 0 0
                suspended true [Click; Advance 2; Click] Click)
      as (w & w' & E & E' & H);
      [qcompute | reflexivity | reflexivity | reflexivity |].
    assert (Hw : w = world_of (session [Click; Advance 2; Click]
               (initial (Some buf5) (Some TheContext) 0 0 suspended true))).
    { rewrite E. reflexivity. }
    exists w, w'. split; [exact E|]. split; [exact E'|].
    assert (H1 : length (sources (audio w)) = 1%nat)
      by (rewrite Hw; reflexivity).
    split; [exact H1|]. rewrite H, H1, Hw. reflexivity.
  - destruct (only_play_creates_nodes (Some buf5) (Some TheContext) 0 0
                suspended true [Click; Advance 2] (NewAudioBuffer None))
      as (w & w' & E & E' & H);
      [qcompute | reflexivity | reflexivity | reflexivity |].
    exists w, w'. split; [exact E|]. split; [exact E'|].
    rewrite H. cbn. lia.
Defined.

(** ** Wrap-around and late [ended] *)

Lemma Qfloor_unique (q : Q) (k : Z) :
  inject_Z k <= q -> q < inject_Z k + 1 -> Qfloor q = k.
Proof.
  intros Hlo Hhi.
  pose proof (Qfloor_le q) as F1. pose proof (Qlt_floor q) as F2.
  rewrite inject_Z_plus in F2. change (inject_Z 1) with 1 in F2.
  assert (H1 : (Qfloor q < k + 1)%Z).
  { rewrite Zlt_Qlt, inject_Z_plus. change (inject_Z 1) with 1. lra. }
  assert (H2 : (k < Qfloor q + 1)%Z).
  { rewrite Zlt_Qlt, inject_Z_plus. change (inject_Z 1) with 1. lra. }
  lia.
Qed.

Lemma js_rem_wrap (a r d : Q) (k : Z) :
  0 <= r -> r < d -> (0 <= k)%Z -> a == r + inject_Z k * d ->
  js_rem a d == r.
Proof.
  intros Hr Hrd Hk Ha.
  assert (Hd : 0 < d) by lra.
  assert (Hk' : 0 <= inject_Z k).
  { change 0 with (inject_Z 0). rewrite <- Zle_Qle. exact Hk. }
  assert (Hkd : 0 <= inject_Z k * d) by (apply Qmult_le_0_compat; lra).
  assert (Ha0 : 0 <= a) by lra.
  unfold js_rem. rewrite (Qtrunc_nonneg _ (Qdiv_nonneg a d Ha0 Hd)).
  rewrite (Qfloor_unique (a / d) k).
  - lra.
  - apply Qle_shift_div_l; [exact Hd | lra].
  - apply Qlt_shift_div_r; [exact Hd | lra].
Qed.

(** X6.  A paused offset that has run past the end of the buffer wraps
    around: if [pausedTimeRef] is [r] plus [k] whole durations, with
    [0 <= r < duration], the next Play starts at [r]. *)
Theorem play_wraps_paused_offset (w : World) (buf : AudioBuffer)
  (h : ContextHandle) (r : Q) (k : Z) :
  audioBuffer (scope w) = Some buf -> audioContext (scope w) = Some h ->
  isPlaying (scope w) = false ->
  0 <= r -> r < duration buf -> (0 <= k)%Z ->
  pausedTimeRef (refs w) == r + inject_Z k * duration buf ->
  exists w' n s off,
    step Click w = Ok tt w' /\
    sourceRef (refs w') = Some n /\ source_at w' n = Some s /\
    started s = Some off /\ off == r /\
    startTimeRef (refs w') == currentTime (audio w') - r.
Proof.
  intros Hb Hc Hp Hr Hrd Hk Hpaused.
  assert (Hd : 0 < duration buf) by lra.
  assert (Hk' : 0 <= inject_Z k).
  { change 0 with (inject_Z 0). rewrite <- Zle_Qle. exact Hk. }
  assert (Hkd : 0 <= inject_Z k * duration buf)
    by (apply Qmult_le_0_compat; lra).
  assert (Hp0 : 0 <= pausedTimeRef (refs w)) by lra.
  destruct (click_play w buf h Hb Hc Hp Hd Hp0)
    as (w1 & E1 & Hsc & Hrf & Hau & Hpg).
  pose proof (js_rem_wrap _ r (duration buf) k Hr Hrd Hk Hpaused) as Hw.
  exists w1. eexists. eexists. eexists.
  split; [exact E1|].
  split; [rewrite Hrf; reflexivity|].
  split; [unfold source_at; rewrite Hau; cbn [sources]; apply nth_error_snoc|].
  split; [reflexivity|].
  split; [exact Hw|].
  rewrite Hrf, Hau. cbn [startTimeRef currentTime]. rewrite Hw. reflexivity.
Qed.

Lemma play_wraps_paused_offset_witness :
  let w := world_of (run [Click; Advance 5; Click] w5) in
  pausedTimeRef (refs w) == 5 /\
  exists w' n s off,
    step Click w = Ok tt w' /\
    sourceRef (refs w') = Some n /\ source_at w' n = Some s /\
    started s = Some off /\ off == 0 /\
    startTimeRef (refs w') == currentTime (audio w') - 0.
Proof.
  cbv zeta. split; [qcompute|].
  apply (play_wraps_paused_offset
           (world_of (run [Click; Advance 5; Click] w5)) buf5 TheContext
           0 1); try reflexivity; try qcompute.
Defined.

(** X7.  The position of a pause is lost when its [ended] event is handled
    late: after Play, a Pause [dt] later and an [ended] event of that source
    handled [dt'] later still, with the clock by then a whole duration past
    the start reference, [isPlaying] is false and [pausedTimeRef] is 0, so
    the next Play starts from the beginning. *)
Theorem late_ended_forgets_pause (w : World) (buf : AudioBuffer)
  (h : ContextHandle) (dt dt' : Q) :
  audioBuffer (scope w) = Some buf -> audioContext (scope w) = Some h ->
  isPlaying (scope w) = false ->
  0 < duration buf -> 0 <= pausedTimeRef (refs w) -> 0 <= dt ->
  let off0 := js_rem (pausedTimeRef (refs w)) (duration buf) in
  let n := length (sources (audio w)) in
  duration buf <= off0 + dt + dt' ->
  exists w2 w3,
    run [Click; Advance dt; Click] w = Ok tt w2 /\
    pausedTimeRef (refs w2) == off0 + dt /\
    run [Advance dt'; Ended n] w2 = Ok tt w3 /\
    isPlaying (scope w3) = false /\
    pausedTimeRef (refs w3) = 0.
Proof.
  intros Hb Hc Hp Hd Hpaused Hdt off0 n Hlate.
  destruct (click_play w buf h Hb Hc Hp Hd Hpaused)
    as (w1 & E1 & Hsc & Hrf & Hau & Hpg).
  fold off0 in Hrf, Hau. fold n in Hrf, Hau.
  set (w1' := with_audio (fun a => set_currentTime (currentTime a + dt) a) w1).
  assert (E2 : step (Advance dt) w1 = Ok tt w1') by reflexivity.
  assert (Hs1 : source_at w1' n =
                Some (session_source buf (length (filters (audio w))) off0)).
  { unfold source_at, w1'. cbn. rewrite Hau. cbn. apply nth_error_snoc. }
  pose proof (click_pause w1' buf h n
                (session_source buf (length (filters (audio w))) off0)) as E3.
  specialize (E3 ltac:(cbn; rewrite Hsc; exact Hb)
                 ltac:(cbn; rewrite Hsc; exact Hc)
                 ltac:(cbn; rewrite Hsc; reflexivity)
                 ltac:(cbn; rewrite Hrf; reflexivity)
                 Hs1 ltac:(discriminate)).
  match type of E3 with _ = Ok tt ?x => set (w2 := x) in * end.
  assert (Hp2 : pausedTimeRef (refs w2) == off0 + dt).
  { unfold w2, w1'. cbn. rewrite Hrf, Hau. cbn. ring. }
  set (w2' := with_audio (fun a => set_currentTime (currentTime a + dt') a) w2).
  assert (E4 : step (Advance dt') w2 = Ok tt w2') by reflexivity.
  assert (E5 : step (Ended n) w2' = onended_handler buf w2').
  { unfold step. unfold_m. cbn. rewrite Hau. cbn.
    rewrite nth_error_update_same. unfold n. rewrite nth_error_snoc.
    reflexivity. }
  assert (Hle : Qle_bool (duration buf)
                  (currentTime (audio w2') - startTimeRef (refs w2')) = true).
  { apply Qle_bool_iff. unfold w2', w2, w1'. cbn. rewrite Hrf, Hau. cbn.
    lra. }
  rewrite onended_handler_runs, Hle in E5.
  exists w2. eexists.
  split. { cbn [run]. unfold bind. rewrite E1, E2, E3. reflexivity. }
  split. { exact Hp2. }
  split. { cbn [run]. unfold bind. rewrite E4, E5. reflexivity. }
  split; reflexivity.
Qed.

Lemma late_ended_forgets_pause_witness :
  exists w2 w3,
    run [Click; Advance 4.9; Click] w5 = Ok tt w2 /\
    pausedTimeRef (refs w2) == 4.9 /\
    run [Advance 0.2; Ended 0] w2 = Ok tt w3 /\
    isPlaying (scope w3) = false /\
    pausedTimeRef (refs w3) = 0.
Proof.
  destruct (late_ended_forgets_pause w5 buf5 TheContext 4.9 0.2)
    as (w2 & w3 & E1 & Hp & E2 & Hi & Hz);
    try reflexivity; try qcompute.
  exists w2, w3.
  split; [exact E1|]. split; [rewrite Hp; qcompute|].
  split; [exact E2|]. split; assumption.
Defined.

(** ** Spectrum bars *)

Lemma bars_from_length (c : Canvas) (bw x : Q) (data : list Z) :
  length (bars_from c bw x data) = length data.
Proof.
  revert x; induction data as [|v data IH]; intros x; cbn;
    [reflexivity | now rewrite IH].
Qed.

Lemma bars_from_nth (c : Canvas) (bw : Q) (data : list Z) :
  forall (x : Q) (i : nat) (r : Rect),
  nth_error (bars_from c bw x data) i = Some r ->
  exists v, nth_error data i = Some v /\
    rect_x r == x + inject_Z (Z.of_nat i) * (bw + 1) /\
    rect_w r = bw /\
    rect_h r = inject_Z v / 2 /\
    rect_y r = inject_Z (height c) - inject_Z v / 2.
Proof.
  induction data as [|v data IH]; intros x i r H.
  - destruct i; discriminate.
  - destruct i as [|i].
    + cbn in H. injection H as <-. exists v. cbn [nth_error].
      split; [reflexivity|]. cbn [rect_x rect_w rect_h rect_y].
      split; [|auto]. change (inject_Z (Z.of_nat 0)) with 0. ring.
    + cbn [bars_from nth_error] in H.
      destruct (IH _ i r H) as (u & Hu & Hx & Hw & Hh & Hy).
      exists u. cbn [nth_error]. split; [exact Hu|].
      split; [|auto]. rewrite Hx.
      rewrite Nat2Z.inj_succ. unfold Z.succ. rewrite inject_Z_plus.
      change (inject_Z 1) with 1. ring.
Qed.

(** X8.  One frame paints one bar per frequency bin, in order: bar [i] has
    the common width [(canvas.width / bufferLength) * 2.5], starts at
    [i * (width + 1)] (so neighbours are one pixel apart), is half the
    bin's magnitude high, and stands on the bottom edge of the canvas. *)
Theorem bars_layout (c : Canvas) (data : list Z) :
  length (bars c data) = length data /\
  forall (i : nat) (r : Rect),
    nth_error (bars c data) i = Some r ->
    exists v, nth_error data i = Some v /\
      rect_w r = (inject_Z (width c) / inject_Z (Z.of_nat (length data))) * 2.5 /\
      rect_x r == inject_Z (Z.of_nat i) * (rect_w r + 1) /\
      rect_h r == inject_Z v / 2 /\
      rect_y r + rect_h r == inject_Z (height c).
Proof.
  split; [apply bars_from_length|].
  intros i r H. unfold bars in H.
  destruct (bars_from_nth c _ data 0 i r H) as (v & Hv & Hx & Hw & Hh & Hy).
  exists v. split; [exact Hv|]. split; [exact Hw|].
  split; [rewrite Hx, Hw; ring|].
  split; [rewrite Hh; reflexivity|].
  rewrite Hy, Hh. ring.
Qed.

(** X9.  Magnitudes are bytes, so a bar is at most 127.5 high, while the
    canvas of the component is 100 high: the bar of a bin sticks out above
    the canvas exactly when the bin's magnitude exceeds 200. *)
Theorem tall_bars_leave_canvas (data : list Z) (i : nat) (r : Rect) (v : Z) :
  nth_error (bars the_canvas data) i = Some r ->
  nth_error data i = Some v -> (0 <= v <= 255)%Z ->
  0 <= rect_h r /\ rect_h r <= 127.5 /\
  (rect_y r < 0 <-> (200 < v)%Z).
Proof.
  intros H Hv Hb. unfold bars in H.
  destruct (bars_from_nth the_canvas _ data 0 i r H)
    as (u & Hu & _ & _ & Hh & Hy).
  rewrite Hv in Hu. injection Hu as <-.
  rewrite Hh, Hy. cbn [height the_canvas].
  assert (B0 : 0 <= inject_Z v).
  { change 0 with (inject_Z 0). rewrite <- Zle_Qle. lia. }
  assert (B1 : inject_Z v <= 255).
  { change 255 with (inject_Z 255). rewrite <- Zle_Qle. lia. }
  assert (E : inject_Z v / 2 == inject_Z v * (1 # 2)) by field.
  split; [rewrite E; lra|]. split; [rewrite E; lra|].
  rewrite E. split.
  - intros Hlt. rewrite Zlt_Qlt. change (inject_Z 200) with 200.
    change (inject_Z 100) with 100 in Hlt. lra.
  - intros Hlt. rewrite Zlt_Qlt in Hlt. change (inject_Z 200) with 200 in Hlt.
    change (inject_Z 100) with 100. lra.
Qed.

Lemma tall_bars_leave_canvas_witness :
  exists r,
    nth_error (bars the_canvas [10; 255; 200]%Z) 1 = Some r /\
    0 <= rect_h r /\ rect_h r <= 127.5 /\ rect_y r < 0.
Proof.
  eexists. split; [reflexivity|].
  destruct (tall_bars_leave_canvas [10; 255; 200]%Z 1 _ 255%Z
              eq_refl eq_refl ltac:(lia)) as (H0 & H1 & H2).
  split; [exact H0|]. split; [exact H1|]. apply H2. lia.
Defined.

(** X10.  With the 128 bins of the analyser and the 600 pixel wide canvas,
    bars are 12.71875 pixels apart, so only bars 0 to 47 start inside the
    canvas; the bars of bins 48 to 127 lie entirely to its right. *)
Theorem only_48_bars_fit (data : list Z) (i : nat) (r : Rect) :
  length data = frequencyBinCount ->
  nth_error (bars the_canvas data) i = Some r ->
  (rect_x r < inject_Z (width the_canvas) <-> (i < 48)%nat).
Proof.
  intros Hlen H. unfold bars in H. rewrite Hlen in H.
  destruct (bars_from_nth the_canvas _ data 0 i r H)
    as (u & _ & Hx & _ & _ & _).
  rewrite Hx. cbn [width the_canvas].
  assert (E : 0 + inject_Z (Z.of_nat i) *
                (inject_Z 600 / inject_Z (Z.of_nat frequencyBinCount) * 2.5 + 1)
              == inject_Z (Z.of_nat i) * (407 # 32)).
  { assert (K : inject_Z 600 / inject_Z (Z.of_nat frequencyBinCount) * 2.5 + 1
                == 407 # 32) by reflexivity.
    rewrite K. ring. }
  rewrite E. unfold Qlt. cbn. split; intros; lia.
Qed.

Lemma only_48_bars_fit_witness :
  let data := repeat 0%Z 128 in
  (exists r, nth_error (bars the_canvas data) 47 = Some r /\
             rect_x r < inject_Z (width the_canvas)) /\
  (exists r, nth_error (bars the_canvas data) 48 = Some r /\
             ~ rect_x r < inject_Z (width the_canvas)).
Proof.
  cbv zeta. split.
  - eexists. split; [reflexivity|].
    apply (only_48_bars_fit (repeat 0%Z 128) 47 _ eq_refl eq_refl). lia.
  - eexists. split; [reflexivity|]. intros Hlt.
    apply (only_48_bars_fit (repeat 0%Z 128) 48 _ eq_refl eq_refl) in Hlt.
    lia.
Defined.

Lemma bars_layout_witness :
  exists r,
    nth_error (bars the_canvas [10; 255; 200]%Z) 2 = Some r /\
    rect_x r == 1002 /\ rect_w r == 500 /\ rect_h r == 100 /\
    rect_y r == 0.
Proof.
  destruct (bars_layout the_canvas [10; 255; 200]%Z) as [_ H].
  eexists. split; [reflexivity|].
  destruct (H 2%nat _ eq_refl) as (v & Hv & Hw & Hx & Hh & Hy).
  injection Hv as <-.
  repeat split; qcompute.
Defined.

(** ** Download *)

Lemma fresh_filter {A} (l : list (nat * A)) (n : nat) :
  forallb (fun c => Nat.ltb (fst c) n) l = true ->
  filter (fun c => negb (Nat.eqb (fst c) n)) l = l.
Proof.
  intros H. apply forallb_filter_id.
  rewrite forallb_forall in *. intros x Hx. specialize (H x Hx).
  apply Nat.ltb_lt in H. apply negb_true_iff, Nat.eqb_neq. lia.
Qed.

Lemma fresh_find {A} (l : list (nat * A)) (n : nat) (x : A) :
  forallb (fun c => Nat.ltb (fst c) n) l = true ->
  find (fun c => Nat.eqb (fst c) n) (l ++ [(n, x)]) = Some (n, x).
Proof.
  induction l as [|c l IH]; cbn; intros H.
  - now rewrite Nat.eqb_refl.
  - apply andb_true_iff in H. destruct H as [Hc Hl].
    apply Nat.ltb_lt in Hc.
    destruct (Nat.eqb (fst c) n) eqn:E; [apply Nat.eqb_eq in E; lia|].
    apply IH. exact Hl.
Qed.

(** X11.  [handleDownload] without a blob does nothing.  With a blob it
    starts exactly one download, of that blob under the time-stamped name,
    and cleans up after itself: the children of the body and the live
    object URLs are the same as before, and [removeChild] finds its node. *)
Theorem download_cleans_up (b : Blob) (now : Z) (d : Document) :
  fresh_ids d = true ->
  handleDownload None now d = Some d /\
  exists d',
    handleDownload (Some b) now d = Some d' /\
    body d' = body d /\
    objectURLs d' = objectURLs d /\
    saved d' = saved d ++ [(b, download_name now)].
Proof.
  intros F. split; [reflexivity|].
  unfold fresh_ids in F. apply andb_true_iff in F. destruct F as [Fb Fu].
  unfold handleDownload, createObjectURL, createElement, appendChild,
    anchor_click, revokeObjectURL, removeChild.
  cbn. rewrite (fresh_find _ _ b Fu). cbn.
  rewrite existsb_app. cbn. rewrite Nat.eqb_refl, orb_true_r.
  eexists. split; [reflexivity|]. cbn.
  rewrite !filter_app. cbn. rewrite !Nat.eqb_refl. cbn.
  rewrite !app_nil_r, (fresh_filter _ _ Fb), (fresh_filter _ _ Fu).
  auto.
Qed.

Lemma download_cleans_up_witness :
  exists d',
    handleDownload (Some {| blob_id := 7 |}) 1730000000000 doc0 = Some d' /\
    body d' = body doc0 /\
    objectURLs d' = objectURLs doc0 /\
    saved d' = [({| blob_id := 7 |}, "lyrical-studio-1730000000000.wav"%string)].
Proof.
  destruct (download_cleans_up {| blob_id := 7 |} 1730000000000 doc0 eq_refl)
    as (_ & d' & E & Hb & Hu & Hs).
  exists d'. split; [exact E|]. split; [exact Hb|]. split; [exact Hu|].
  rewrite Hs. reflexivity.
Defined.

Lemma string_append_length (s t : string) :
  String.length (s ++ t) = (String.length s + String.length t)%nat.
Proof. induction s as [|c s IH]; cbn; [reflexivity | now rewrite IH]. Qed.

Lemma string_append_inv_tail (s s' t : string) :
  (s ++ t)%string = (s' ++ t)%string -> s = s'.
Proof.
  revert s'. induction s as [|c s IH]; intros [|c' s'] H; cbn in H.
  - reflexivity.
  - apply (f_equal String.length) in H. cbn in H.
    rewrite string_append_length in H. lia.
  - apply (f_equal String.length) in H. cbn in H.
    rewrite string_append_length in H. lia.
  - injection H as -> H. f_equal. apply IH. exact H.
Qed.

Lemma to_int_printable (z : Z) :
  Z.to_int z <> Decimal.Pos Decimal.Nil /\
  Z.to_int z <> Decimal.Neg Decimal.Nil.
Proof.
  destruct z as [|p|p]; cbn; split; try discriminate;
    intros H; injection H as H;
    exact (DecimalPos.Unsigned.to_uint_nonnil p H).
Qed.

(** X12.  The file name is ["lyrical-studio-"], the decimal digits of
    [Date.now()] and [".wav"]; two downloads get the same name only if they
    happen in the same millisecond. *)
Theorem download_name_injective (t1 t2 : Z) :
  download_name t1 = download_name t2 -> t1 = t2.
Proof.
  unfold download_name. intros H. cbn in H.
  injection H as H. apply string_append_inv_tail in H.
  apply to_int_inj.
  destruct (to_int_printable t1) as [P1 N1].
  destruct (to_int_printable t2) as [P2 N2].
  pose proof (NilZero.isi _ P1 N1) as I1.
  pose proof (NilZero.isi _ P2 N2) as I2.
  rewrite H in I1. congruence.
Qed.

Lemma download_name_injective_witness :
  download_name 1730000000000 = "lyrical-studio-1730000000000.wav"%string /\
  download_name 1730000000000 <> download_name 1730000000001.
Proof.
  split; [reflexivity|]. intros H.
  apply download_name_injective in H. discriminate H.
Defined.

(** ** Voice selector *)

Lemma selected_none (sel : string) (l : list VoiceOption) :
  ~ In sel (map name l) -> filter (isSelected sel) l = [].
Proof.
  induction l as [|x l IH]; cbn; intros H; [reflexivity|].
  unfold isSelected at 1.
  destruct (String.eqb_spec sel (name x)) as [E|E];
    [exfalso; apply H; left; symmetry; exact E|].
  apply IH. tauto.
Qed.

Lemma selected_one (l : list VoiceOption) (v : VoiceOption) :
  NoDup (map name l) -> In v l -> filter (isSelected (name v)) l = [v].
Proof.
  induction l as [|x l IH]; cbn; intros N Hin; [contradiction|].
  inversion N as [|? ? Hx Nl]; subst.
  unfold isSelected at 1.
  destruct Hin as [->|Hin].
  - rewrite String.eqb_refl. f_equal. apply selected_none. exact Hx.
  - destruct (String.eqb_spec (name v) (name x)) as [E|E].
    + exfalso. apply Hx. rewrite <- E. apply in_map. exact Hin.
    + apply IH; assumption.
Qed.

Lemma NoDup_names_filter (p : VoiceOption -> bool) (l : list VoiceOption) :
  NoDup (map name l) -> NoDup (map name (filter p l)).
Proof.
  induction l as [|x l IH]; cbn; intros N; [constructor|].
  inversion N as [|? ? Hx Nl]; subst.
  destruct (p x); cbn; [constructor|]; auto.
  intros Hin. apply Hx. apply in_map_iff in Hin.
  destruct Hin as (y & Hy & Hin). apply filter_In in Hin.
  rewrite <- Hy. apply in_map. tauto.
Qed.

Lemma VOICES_names_distinct : NoDup (map name VOICES).
Proof.
  cbn. repeat (constructor; [cbn; intuition discriminate|]). constructor.
Qed.

Lemma filteredVoices_names_distinct (fg : FilterGender) :
  NoDup (map name (filteredVoices fg)).
Proof.
  destruct fg as [|g]; cbn [filteredVoices].
  - exact VOICES_names_distinct.
  - apply NoDup_names_filter. exact VOICES_names_distinct.
Qed.

(** X13.  Whatever name is selected and whatever the gender filter, at most
    one voice button is rendered as selected.  A voice that is shown is the
    only one selected when its name is the selected one; when the gender
    filter hides the selected voice, no button is selected. *)
Theorem one_voice_highlighted :
  (forall sel fg, (length (highlighted sel fg) <= 1)%nat) /\
  (forall fg v, In v (filteredVoices fg) -> highlighted (name v) fg = [v]) /\
  (forall v g, In v VOICES -> gender v <> g ->
     highlighted (name v) (Only g) = []).
Proof.
  split; [|split].
  - intros sel fg. unfold highlighted.
    destruct (in_dec string_dec sel (map name (filteredVoices fg)))
      as [Hin|Hout].
    + apply in_map_iff in Hin. destruct Hin as (v & <- & Hv).
      rewrite (selected_one _ v (filteredVoices_names_distinct fg) Hv).
      cbn. lia.
    + rewrite (selected_none _ _ Hout). cbn. lia.
  - intros fg v Hv. unfold highlighted.
    apply selected_one; [apply filteredVoices_names_distinct | exact Hv].
  - intros v g Hv Hg. unfold highlighted. apply selected_none.
    cbn [filteredVoices]. intros Hin. apply in_map_iff in Hin.
    destruct Hin as (u & Hu & Hin). apply filter_In in Hin.
    destruct Hin as [Hin Hgu].
    assert (u = v).
    { pose proof (selected_one VOICES u VOICES_names_distinct Hin) as S1.
      pose proof (selected_one VOICES v VOICES_names_distinct Hv) as S2.
      rewrite Hu in S1. congruence. }
    subst u. apply Hg. destruct (gender v), g; try reflexivity; discriminate.
Qed.

Lemma one_voice_highlighted_witness :
  map name (highlighted "Zephyr" All) = ["Zephyr"%string] /\
  highlighted "Zephyr" (Only Male) = [] /\
  highlighted "Nobody" All = [].
Proof.
  destruct one_voice_highlighted as (_ & Shown & Hidden).
  split; [|split].
  - pose proof (Shown All {| name := "Zephyr"; gender := Female;
                             style := "Bright" |}
                  ltac:(cbn; auto)) as E.
    cbn [name] in E. rewrite E. reflexivity.
  - apply (Hidden {| name := "Zephyr"; gender := Female; style := "Bright" |});
      [cbn; auto | discriminate].
  - reflexivity.
Defined.

(** ** Mode switch *)

(** X14.  The effect that follows a change of mode replaces the text only
    when it is exactly the sample of the other mode.  Any other text is
    kept, the initial text is left alone, the text is never the other
    mode's sample afterwards, and switching the mode forth and back brings
    a sample back. *)
Theorem mode_effect_keeps_user_text :
  (forall mode text,
     text <> SAMPLE_SINGLE_PROMPT -> text <> SAMPLE_MULTI_PROMPT ->
     mode_effect mode text = text) /\
  (forall mode, mode_effect mode (initial_text mode) = initial_text mode) /\
  (forall text, mode_effect SINGLE text <> SAMPLE_MULTI_PROMPT) /\
  (forall text, mode_effect MULTI text <> SAMPLE_SINGLE_PROMPT) /\
  (forall mode,
     mode_effect mode (mode_effect (match mode with
                                    | SINGLE => MULTI
                                    | MULTI => SINGLE
                                    end) (initial_text mode))
     = initial_text mode).
Proof.
  assert (D : SAMPLE_SINGLE_PROMPT <> SAMPLE_MULTI_PROMPT) by discriminate.
  split; [|split; [|split; [|split]]].
  - intros mode text H1 H2. unfold mode_effect.
    destruct mode.
    + destruct (String.eqb_spec text SAMPLE_MULTI_PROMPT); congruence.
    + destruct (String.eqb_spec text SAMPLE_SINGLE_PROMPT); congruence.
  - intros []; reflexivity.
  - intros text. unfold mode_effect.
    destruct (String.eqb_spec text SAMPLE_MULTI_PROMPT); congruence.
  - intros text. unfold mode_effect.
    destruct (String.eqb_spec text SAMPLE_SINGLE_PROMPT); congruence.
  - intros []; reflexivity.
Qed.

Lemma mode_effect_keeps_user_text_witness :
  mode_effect MULTI "Hello there"%string = "Hello there"%string /\
  mode_effect MULTI SAMPLE_SINGLE_PROMPT = SAMPLE_MULTI_PROMPT.
Proof.
  destruct mode_effect_keeps_user_text as (Keep & _).
  split; [|reflexivity].
  apply Keep; discriminate.
Defined.

(** ** Several play / pause cycles *)

Lemma run_app (l1 l2 : list Event) (w : World) :
  run (l1 ++ l2) w =
  match run l1 w with
  | Ok _ w' => run l2 w'
  | Throw e w' => Throw e w'
  end.
Proof.
  revert w. induction l1 as [|e l1 IH]; intros w; [reflexivity|].
  cbn [run app]. unfold bind. destruct (step e w); [apply IH | reflexivity].
Qed.

(** X15.  Playing time adds up over pauses and idle time does not count,
    when the [ended] event of the first pause is handled before the clock is
    a whole duration past the start reference: after Play, [a] of playback,
    Pause, that [ended] event [i1] later, a further wait [i2], Play, [b] of
    playback and Pause, [pausedTimeRef] is the initial offset plus
    [a + b]. *)
Theorem playing_time_adds_up (w : World) (buf : AudioBuffer)
  (h : ContextHandle) (a i1 i2 b : Q) :
  audioBuffer (scope w) = Some buf -> audioContext (scope w) = Some h ->
  isPlaying (scope w) = false ->
  0 < duration buf -> 0 <= pausedTimeRef (refs w) ->
  0 <= a -> 0 <= i1 -> 0 <= b ->
  let off0 := js_rem (pausedTimeRef (refs w)) (duration buf) in
  let n := length (sources (audio w)) in
  off0 + a + i1 < duration buf ->
  exists w',
    run [Click; Advance a; Click; Advance i1; Ended n; Advance i2;
         Click; Advance b; Click] w = Ok tt w' /\
    isPlaying (scope w') = false /\
    pausedTimeRef (refs w') == off0 + a + b.
Proof.
  intros Hb Hc Hp Hd Hpaused Ha Hi1 Hb' off0 n Hlt.
  destruct (play_pause_cycle w buf h a Hb Hc Hp Hd Hpaused Ha)
    as (w2 & E1 & Hb2 & Hc2 & Hp2 & He2 & Hq2 & s2 & Hs2 & Hh2).
  fold off0 in Hq2. fold n in Hs2.
  destruct (js_rem_bounds _ _ Hpaused Hd) as [Hlo _]. fold off0 in Hlo.
  set (w2b := with_audio
                (fun x => set_currentTime (currentTime x + i1) x) w2).
  assert (Ee : step (Ended n) w2b = Ok tt w2b).
  { apply (ended_ignored w2b n s2 buf Hs2 Hh2).
    unfold w2b. cbn.
    assert (K : currentTime (audio w2) - startTimeRef (refs w2)
                == off0 + a) by (rewrite <- He2; exact Hq2).
    lra. }
  set (w2c := with_audio
                (fun x => set_currentTime (currentTime x + i2) x) w2b).
  assert (Hq2' : 0 <= pausedTimeRef (refs w2c)).
  { change (pausedTimeRef (refs w2c)) with (pausedTimeRef (refs w2)). lra. }
  destruct (play_pause_cycle w2c buf h b Hb2 Hc2 Hp2 Hd Hq2' Hb')
    as (w4 & E2 & _ & _ & Hp4 & _ & Hq4 & _).
  exists w4.
  split.
  { change [Click; Advance a; Click; Advance i1; Ended n; Advance i2;
            Click; Advance b; Click]
      with ([Click; Advance a; Click] ++
            Advance i1 :: Ended n :: Advance i2 :: [Click; Advance b; Click]).
    rewrite run_app, E1. cbn [run]. unfold bind.
    change (step (Advance i1) w2) with (Ok tt w2b). cbn beta iota.
    rewrite Ee.
    change (step (Advance i2) w2b) with (Ok tt w2c). cbn beta iota.
    cbn [run] in E2. unfold bind in E2. exact E2. }
  split; [exact Hp4|].
  rewrite Hq4.
  change (pausedTimeRef (refs w2c)) with (pausedTimeRef (refs w2)).
  assert (Hs : js_rem (pausedTimeRef (refs w2)) (duration buf)
               == pausedTimeRef (refs w2))
    by (apply js_rem_small; lra).
  rewrite Hs, Hq2. reflexivity.
Qed.

Lemma playing_time_adds_up_witness :
  exists w',
    run [Click; Advance 1.5; Click; Advance 0.01; Ended 0; Advance 60;
         Click; Advance 2; Click] w5 = Ok tt w' /\
    isPlaying (scope w') = false /\
    pausedTimeRef (refs w') == 3.5.
Proof.
  destruct (playing_time_adds_up w5 buf5 TheContext 1.5 0.01 60 2)
    as (w' & E & Hp & Hq); try reflexivity; try qcompute.
  exists w'. split; [exact E|]. split; [exact Hp|].
  rewrite Hq. qcompute.
Defined.
